(** * FIFO gain/loss calculator: the matching engine of [streamlit_app.py]

    The script reads a table of transactions, sorts it by date, splits it by
    (identifier, currency) and runs a FIFO lot matcher over every group.
    This development embeds the computation that starts once the table is
    loaded and the columns are mapped (the emptiness check on the Buy/Sell
    value lists, the per-row conversion, the Buy and Sell branches and the
    [while sell_qty > 0] loop) and proves the properties stated about it.

    Numbers: Python floats are modelled by exact rationals [Q]; [==] on
    numbers is [Qeq].  Sums and differences are therefore exact, where the
    interpreter rounds them to doubles: a statement that rests on that says
    so.  The values [inf] and [nan] have no counterpart; a text that [float]
    reads as one of them is outside the model. *)

From Stdlib Require Import ZArith QArith Qabs List String Ascii Bool Lia Lqa.
From Stdlib Require Import Sorting.Sorted.
Import ListNotations.

Set Default Proof Using "Type".

Local Open Scope Q_scope.

(** ** Numbers *)

(** [a < b] as the interpreter decides it. *)
Definition Qltb (a b : Q) : bool :=
  match a ?= b with Lt => true | _ => false end.

(** Python's [min(a, b)]: the second argument only when it is strictly
    smaller, the first one otherwise. *)
Definition py_min (a b : Q) : Q := if Qltb b a then b else a.

(** Nearest integer, ties to the even one. *)
Definition round_half_even (x : Q) : Z :=
  let n := Qnum x in
  let d := Zpos (Qden x) in
  let f := (n / d)%Z in
  match (2 * (n mod d) ?= d)%Z with
  | Lt => f
  | Gt => (f + 1)%Z
  | Eq => if Z.even f then f else (f + 1)%Z
  end.

(** A rounding to two decimals on exact values, ties to the even
    hundredth; it is the rounding the examples below are run with. *)
Definition round2 (x : Q) : Q := round_half_even (x * 100) # 100.

(** ** Data *)

(** A date after [pd.to_datetime(..., errors='coerce')]: a point in time or
    [NaT]. *)
Inductive Timestamp : Type :=
| TS (t : Z)
| NaT.

(** A cell of the quantity or price column: a number, a string, or some
    other object that [float] rejects. *)
Inductive Cell : Type :=
| CNum (q : Q)
| CStr (s : string)
| CObj.

(** A row of the frame, seen through the column mapping. *)
Record Row : Type := mkRow {
  row_date : Timestamp;
  row_type : string;
  row_qty : Cell;
  row_price : Cell;
  row_identifier : string;
  row_currency : string;
  row_extras : list (string * Cell)
}.

(** An entry [[qty, price, date]] of [fifo_queue]. *)
Record OpenLot : Type := mkLot {
  buy_qty : Q;
  buy_price : Q;
  buy_date : Timestamp
}.

(** A tuple [(used_qty, buy_price, buy_date, price, gain)] of [lots];
    [None] stands for the string ['Unknown']. *)
Record MatchedLot : Type := mkMatched {
  used_qty : Q;
  cost_basis : option Q;
  acquired : option Timestamp;
  sale_price : Q;
  gain : option Q
}.

(** A dictionary appended to [results]: its seven computed entries, and
    the extra cells [**identifiers] that follow them in the literal.  The
    record keeps the two apart; in the dictionary an extra cell named like
    a computed entry takes its place, so the fields are the entries of the
    dictionary when no extra column bears such a name ([plain_extras]). *)
Record SaleResult : Type := mkResult {
  Date : Timestamp;
  Identifier : string;
  Currency : string;
  Sell_Price : Q;
  Sell_Qty : Q;
  Gain_Loss : Q;
  Matched_Lots : list MatchedLot;
  identifiers : list (string * Cell)
}.

Record Config : Type := mkConfig {
  buy_vals : list string;
  sell_vals : list string;
  round_gains : bool
}.

(** [st.warning] of the row loop, with the cell [float] failed on. *)
Inductive Warning : Type :=
| SkippingRow (c : Cell).

(** What the row loop carries: the queue of the current group, the results
    so far and the warnings shown so far. *)
Record State : Type := mkState {
  fifo_queue : list OpenLot;
  results : list SaleResult;
  warnings : list Warning
}.

(** The variables of the [while] loop of the Sell branch. *)
Record LoopState : Type := mkLoop {
  sell_qty : Q;
  total_gain : Q;
  lots : list MatchedLot;
  queue : list OpenLot
}.

(** ** Strings *)

(** [s.replace(',', '')] *)
Fixpoint remove_commas (s : string) : string :=
  match s with
  | EmptyString => EmptyString
  | String c s' =>
      if Ascii.eqb c ","%char then remove_commas s'
      else String c (remove_commas s')
  end.

(** [t in vals] *)
Definition in_vals (t : string) (vals : list string) : bool :=
  existsb (String.eqb t) vals.

(** A reader of plain decimal literals ([12], [-3.5], [+.25], [7.]).  On
    these it returns what [float] returns, and it rejects a text without
    digits; it is the reader the examples below are run with. *)
Definition digit_of (c : ascii) : option Z :=
  let n := Z.of_nat (nat_of_ascii c) in
  if ((48 <=? n) && (n <=? 57))%Z then Some (n - 48)%Z else None.

Fixpoint decimal_digits (s : string) (num : Z) (den : positive)
  (dot seen : bool) : option Q :=
  match s with
  | EmptyString => if seen then Some (num # den) else None
  | String c s' =>
      if Ascii.eqb c "."%char then
        if dot then None else decimal_digits s' num den true seen
      else
        match digit_of c with
        | Some d =>
            decimal_digits s' (10 * num + d)%Z
                           (if dot then (10 * den)%positive else den) dot true
        | None => None
        end
  end.

Definition decimal_float (s : string) : option Q :=
  match s with
  | String "-"%char s' => option_map Qopp (decimal_digits s' 0 1 false false)
  | String "+"%char s' => decimal_digits s' 0 1 false false
  | _ => decimal_digits s 0 1 false false
  end.

(** ** Sample data *)

Definition cfg_sample : Config := mkConfig ["Buy"%string] ["Sell"%string] true.

Definition sample_row (day : Z) (kind qty price : string) : Row :=
  mkRow (TS day) kind (CStr qty) (CStr price) "ACME" "USD" [].

Definition acme : string * string := ("ACME"%string, "USD"%string).

(** Buy 10 @ 5 on day 1, Buy 5 @ 6 on day 2, Sell 12 @ 8 on day 3. *)
Definition rows_A : list Row :=
  [ sample_row 1 "Buy" "10" "5";
    sample_row 2 "Buy" "5" "6";
    sample_row 3 "Sell" "12" "8" ].

(** Buy 3 @ 2 on day 1, Sell 5 @ 4 on day 2. *)
Definition rows_C : list Row :=
  [ sample_row 1 "Buy" "3" "2";
    sample_row 2 "Sell" "5" "4" ].

(** Sell 0 @ 10, a Buy of 0 @ 5, a Sell whose quantity is not a number,
    and two rows that are neither Buy nor Sell. *)
Definition row_zero_sell : Row := sample_row 3 "Sell" "0" "10".
Definition row_zero_buy : Row := sample_row 1 "Buy" "0" "5".
Definition row_bad_qty : Row := sample_row 2 "Sell" "abc" "4".
Definition row_fee : Row := sample_row 2 "Fee" "1" "4".
Definition row_dividend : Row := sample_row 2 "Dividend" "abc" "4".

(** A row whose quantity and price are numbers of the frame. *)
Definition num_row (day : Z) (kind : string) (qty price : Q) : Row :=
  mkRow (TS day) kind (CNum qty) (CNum price) "ACME" "USD" [].

(** A row with an extra column [Name]. *)
Definition named_row (day : Z) (kind qty price : string) : Row :=
  mkRow (TS day) kind (CStr qty) (CStr price) "ACME" "USD"
        [("Name"%string, CStr "Acme")].

(** A result whose row has an extra column named ['Used Qty']. *)
Definition res_named_used_qty : SaleResult :=
  mkResult (TS 3) "ACME" "USD" 8 12 34
           [mkMatched 12 (Some 5) (Some (TS 1)) 8 (Some 36)]
           [("Used Qty"%string, CStr "n/a"); ("Name"%string, CStr "Acme")].

(** An output format without directives: every date prints as the format. *)
Definition plain_format (t : Z) : string := "date".

(** No Buy value selected. *)
Definition cfg_no_buy : Config := mkConfig [] ["Sell"%string] true.

(** The sort and the grouping on a frame that is already in date order and
    holds one instrument in one currency. *)
Definition as_given (df : list Row) : list Row := df.

Definition one_group (df : list Row) : list (string * string * list Row) :=
  [(acme, df)].

(** ** The output table *)

(** An entry of an output row: a number, a text, [NaT], or a cell of the
    frame carried over as it is. *)
Inductive OutValue : Type :=
| ONum (q : Q)
| OText (s : string)
| ONaT
| OCell (c : Cell).

(** A dictionary [base]: its keys in insertion order. *)
Definition OutRow : Type := list (string * OutValue).

(** [d[k] = v]: the entry of an old key is replaced where it is, a new key
    goes to the end. *)
Fixpoint dict_set (k : string) (v : OutValue) (d : OutRow) : OutRow :=
  match d with
  | [] => [(k, v)]
  | (k', v') :: d' =>
      if String.eqb k' k then (k, v) :: d' else (k', v') :: dict_set k v d'
  end.

(** [d.get(k)] *)
Fixpoint dict_get (k : string) (d : OutRow) : option OutValue :=
  match d with
  | [] => None
  | (k', v') :: d' => if String.eqb k' k then Some v' else dict_get k d'
  end.

(** The keys of the dictionary appended to [results]. *)
Definition result_keys : list string :=
  ["Date"; "Identifier"; "Currency"; "Sell Price"; "Sell Qty"; "Gain/Loss";
   "Matched Lots"]%string.

Section Output.

(** [t.strftime(output_date_format)] *)
Variable strftime : Z -> string.

Variable has_currency : bool.

Definition or_unknown (x : option Q) : OutValue :=
  match x with
  | Some q => ONum q
  | None => OText "Unknown"
  end.

(** [lot[2].strftime(...) if isinstance(lot[2], pd.Timestamp) else lot[2]] *)
Definition buy_date_value (a : option Timestamp) : OutValue :=
  match a with
  | Some (TS t) => OText (strftime t)
  | Some NaT => ONaT
  | None => OText "Unknown"
  end.

(** [row['Date'].strftime(...) if pd.notnull(row['Date']) else
    'Invalid Date'] *)
Definition sell_date_value (d : Timestamp) : OutValue :=
  match d with
  | TS t => OText (strftime t)
  | NaT => OText "Invalid Date"
  end.

(** The literal [base = {...}] of the expansion loop. *)
Definition base_row (res : SaleResult) (lot : MatchedLot) : OutRow :=
  [ ("Identifier", OText (Identifier res));
    ("Buy Date", buy_date_value (acquired lot));
    ("Buy Price", or_unknown (cost_basis lot));
    ("Sell Date", sell_date_value (Date res));
    ("Sell Price", ONum (Sell_Price res));
    ("Sell Qty", ONum (Sell_Qty res));
    ("Used Qty", ONum (used_qty lot));
    ("Gain/Loss", or_unknown (gain lot)) ]%string.

(** [for col in extra_id_cols: base[col] = row.get(col, '')] *)
Definition set_extras (extras : list (string * Cell)) (base : OutRow) : OutRow :=
  fold_left (fun b kc => dict_set (fst kc) (OCell (snd kc)) b) extras base.

(** The output row of one matched lot of a result.  The fields of the
    result are read as the entries of its dictionary, which they are when no
    extra column bears the name of one of [result_keys]. *)
Definition expand_lot (res : SaleResult) (lot : MatchedLot) : OutRow :=
  let base := base_row res lot in
  let base :=
    if has_currency then dict_set "Currency" (OText (Currency res)) base
    else base in
  set_extras (identifiers res) base.

(** [expanded_results], for results whose fields are the entries of their
    dictionaries ([plain_extras]). *)
Definition expanded_results (rs : list SaleResult) : list OutRow :=
  flat_map (fun res => map (expand_lot res) (Matched_Lots res)) rs.

End Output.

(** No extra column is named like an entry of the result dictionary. *)
Definition plain_extras (res : SaleResult) : Prop :=
  forall k, In k (map fst (identifiers res)) -> ~ In k result_keys.

(** No extra cell of the row is named like an entry of the result
    dictionary, so that [**identifiers] replaces none of them. *)
Definition plain_row (r : Row) : Prop :=
  forall k, In k (map fst (row_extras r)) -> ~ In k result_keys.

(** Two runs of the loop that agree on what is left to sell, on the queue
    and on the matching recorded so far. *)
Definition same_matching (s1 s2 : LoopState) : Prop :=
  sell_qty s1 = sell_qty s2 /\ queue s1 = queue s2 /\
  map (fun l => (used_qty l, cost_basis l, acquired l)) (lots s1) =
  map (fun l => (used_qty l, cost_basis l, acquired l)) (lots s2).

(** A row with the sign of a numeric quantity changed. *)
Definition flip_qty_sign (r : Row) : Row :=
  mkRow (row_date r) (row_type r)
        (match row_qty r with CNum q => CNum (- q) | c => c end)
        (row_price r) (row_identifier r) (row_currency r) (row_extras r).

Definition same_but_sign (r r' : Row) : Prop :=
  r' = r \/ r' = flip_qty_sign r.

(** What a matched lot says of the matching: how much, of which lot. *)
Definition matching (l : MatchedLot) : Q * option Q * option Timestamp :=
  (used_qty l, cost_basis l, acquired l).

(** ** The Sell loop *)

Section Matcher.

(** [float] applied to a string, for the texts it reads as a finite
    number: [None] when it raises [ValueError]. *)
Variable float_of_string : string -> option Q.

Variable cfg : Config.

(** [round(x, 2)], the rounding of the interpreter: nothing is assumed
    about it. *)
Variable py_round2 : Q -> Q.

(** [float(x.replace(',', '') if isinstance(x, str) else x)] *)
Definition to_float (c : Cell) : option Q :=
  match c with
  | CNum q => Some q
  | CStr s => float_of_string (remove_commas s)
  | CObj => None
  end.

(** The [try] block of a row: the quantity, made non-negative, and the
    price, or the cell that raised. *)
Definition parse_row (r : Row) : Cell + Q * Q :=
  match to_float (row_qty r) with
  | None => inl (row_qty r)
  | Some q =>
      match to_float (row_price r) with
      | None => inl (row_price r)
      | Some p => inr (Qabs q, p)
      end
  end.

(** [round(gain, 2)] when the option is set. *)
Definition rounded (g : Q) : Q := if round_gains cfg then py_round2 g else g.

Definition known_lot (used : Q) (front : OpenLot) (price g : Q) : MatchedLot :=
  mkMatched used (Some (buy_price front)) (Some (buy_date front)) price (Some g).

Definition unknown_lot (used price : Q) : MatchedLot :=
  mkMatched used None None price None.

(** One pass through the body of [while sell_qty > 0]. *)
Definition sell_step (price : Q) (s : LoopState) : LoopState :=
  match queue s with
  | front :: rest =>
      let used := py_min (sell_qty s) (buy_qty front) in
      let g := rounded (used * (price - buy_price front)) in
      mkLoop (sell_qty s - used)
             (total_gain s + g)
             (lots s ++ [known_lot used front price g])
             (if Qeq_bool used (buy_qty front) then rest
              else mkLot (buy_qty front - used) (buy_price front)
                         (buy_date front) :: rest)
  | [] =>
      let used := sell_qty s in
      mkLoop (sell_qty s - used)
             (total_gain s)
             (lots s ++ [unknown_lot used price])
             []
  end.

(** The loop.  [None]: [fuel] passes were not enough to leave it. *)
Fixpoint sell_loop (fuel : nat) (price : Q) (s : LoopState) : option LoopState :=
  if Qltb 0 (sell_qty s) then
    match fuel with
    | O => None
    | S n => sell_loop n price (sell_step price s)
    end
  else Some s.

(** The variables after exactly [k] passes; [None] when the loop is left
    earlier. *)
Fixpoint sell_iter (k : nat) (price : Q) (s : LoopState) : option LoopState :=
  match k with
  | O => Some s
  | S k' =>
      if Qltb 0 (sell_qty s) then sell_iter k' price (sell_step price s)
      else None
  end.

(** The variables on entry: [sell_qty = qty], [total_gain = 0], [lots = []]. *)
Definition loop_entry (qty : Q) (q : list OpenLot) : LoopState :=
  mkLoop qty 0 [] q.

(** ** Rows, groups and the whole calculation *)

(** The body of [for _, row in group.iterrows()] for the group
    [(identifier, currency)].  [None] only if the Sell loop ran out of
    fuel. *)
Definition process_row (key : string * string) (st : State) (r : Row)
  : option State :=
  match parse_row r with
  | inl c =>
      Some (mkState (fifo_queue st) (results st)
                    (warnings st ++ [SkippingRow c]))
  | inr (qty, price) =>
      if in_vals (row_type r) (buy_vals cfg) then
        Some (mkState (fifo_queue st ++ [mkLot qty price (row_date r)])
                      (results st) (warnings st))
      else if in_vals (row_type r) (sell_vals cfg) then
        match
          sell_loop (S (List.length (fifo_queue st))) price
                    (loop_entry qty (fifo_queue st))
        with
        | Some s =>
            Some (mkState (queue s)
                          (results st ++
                             [mkResult (row_date r) (fst key) (snd key) price
                                       qty (total_gain s) (lots s)
                                       (row_extras r)])
                          (warnings st))
        | None => None
        end
      else Some st
  end.

Fixpoint process_rows (key : string * string) (st : State) (rows : list Row)
  : option State :=
  match rows with
  | [] => Some st
  | r :: rest =>
      match process_row key st r with
      | Some st' => process_rows key st' rest
      | None => None
      end
  end.

(** One group: a fresh [deque()], then its rows in order. *)
Definition process_group (st : State) (g : string * string * list Row)
  : option State :=
  process_rows (fst g) (mkState [] (results st) (warnings st)) (snd g).

Fixpoint process_groups (st : State) (gs : list (string * string * list Row))
  : option State :=
  match gs with
  | [] => Some st
  | g :: rest =>
      match process_group st g with
      | Some st' => process_groups st' rest
      | None => None
      end
  end.

(** [df.sort_values(by=date_col)] and [df.groupby(['Identifier',
    'Currency'])] are library calls; nothing is assumed about them. *)
Variable sort_values : list Row -> list Row.
Variable groupby : list Row -> list (string * string * list Row).

(** What the button runs: [results] starts empty. *)
Definition fifo_calculation (df : list Row) : option State :=
  process_groups (mkState [] [] []) (groupby (sort_values df)).

Definition config_error : string :=
  "Please select at least one Buy and one Sell transaction type.".

(** How a run of the script ends, from the Buy/Sell selection on. *)
Inductive Outcome : Type :=
| Stopped (message : string)
| Waiting
| Computed (res : list SaleResult) (warns : list Warning).

Definition not_ {A : Type} (l : list A) : bool :=
  match l with [] => true | _ :: _ => false end.

(** [if not buy_vals or not sell_vals: st.error(...); st.stop()], then
    [if st.button(...)]. *)
Definition run_app (pressed : bool) (df : list Row) : option Outcome :=
  if not_ (buy_vals cfg) || not_ (sell_vals cfg) then
    Some (Stopped config_error)
  else if pressed then
    match fifo_calculation df with
    | Some st => Some (Computed (results st) (warnings st))
    | None => None
    end
  else Some Waiting.

(** ** Vocabulary of the properties *)

Definition sum_used (ls : list MatchedLot) : Q :=
  fold_right Qplus 0 (map used_qty ls).

Definition has_cost (l : MatchedLot) : bool :=
  match cost_basis l with Some _ => true | None => false end.

(** Dates in the order of the sorted frame: [NaT] after every date. *)
Definition date_le (a b : Timestamp) : Prop :=
  match a, b with
  | TS x, TS y => (x <= y)%Z
  | _, NaT => True
  | NaT, TS _ => False
  end.

Definition lot_pos (l : OpenLot) : Prop := 0 < buy_qty l.

(** What identifies a lot besides its shrinking quantity. *)
Definition lot_key (l : OpenLot) : Q * Timestamp := (buy_price l, buy_date l).

(** The lot a row pushes, if it is a Buy row that converts. *)
Definition buy_lot_of (r : Row) : list OpenLot :=
  match parse_row r with
  | inr (qty, price) =>
      if in_vals (row_type r) (buy_vals cfg)
      then [mkLot qty price (row_date r)] else []
  | inl _ => []
  end.

Definition buy_lots (rows : list Row) : list OpenLot :=
  flat_map buy_lot_of rows.

(** The queues seen while a group is processed: after each row, and after
    each pass of the loop of a Sell row. *)
Inductive visited (key : string * string) (rows : list Row)
  : list OpenLot -> Prop :=
| visited_row : forall pre suf res0 w0 st,
    rows = pre ++ suf ->
    process_rows key (mkState [] res0 w0) pre = Some st ->
    visited key rows (fifo_queue st)
| visited_pass : forall pre r suf res0 w0 st qty price k s,
    rows = pre ++ r :: suf ->
    process_rows key (mkState [] res0 w0) pre = Some st ->
    parse_row r = inr (qty, price) ->
    in_vals (row_type r) (buy_vals cfg) = false ->
    in_vals (row_type r) (sell_vals cfg) = true ->
    sell_iter k price (loop_entry qty (fifo_queue st)) = Some s ->
    visited key rows (queue s).

Definition by_row_date (a b : Row) : Prop := date_le (row_date a) (row_date b).

Definition by_buy_date (a b : OpenLot) : Prop :=
  date_le (buy_date a) (buy_date b).

Definition queue_inv (rows : list Row) (q : list OpenLot) : Prop :=
  Forall lot_pos q /\
  StronglySorted by_buy_date q /\
  exists before after,
    map lot_key (buy_lots rows) = before ++ map lot_key q ++ after.

(** A result as the Sell branch builds it from a finished loop. *)
Definition sale_of (res : SaleResult) : Prop :=
  exists fuel q s,
    0 <= Sell_Qty res /\
    sell_loop fuel (Sell_Price res) (loop_entry (Sell_Qty res) q) = Some s /\
    Gain_Loss res = total_gain s /\ Matched_Lots res = lots s.

(** The lots of a sale: lots with a cost basis, then at most one without. *)
Definition trailing_unknown (price : Q) (ls : list MatchedLot) : Prop :=
  exists ks us,
    ls = ks ++ us /\ Forall (fun l => has_cost l = true) ks /\
    (us = [] \/ exists used, us = [unknown_lot used price]).

(** The queue relative to the lots bought so far (their keys [L]): positive
    quantities, and the keys of the queue are the last keys of [L]. *)
Definition queue_ok (L : list (Q * Timestamp)) (q : list OpenLot) : Prop :=
  Forall lot_pos q /\ exists before, L = before ++ map lot_key q.

(** ** Vocabulary of the further properties *)

(** The cost basis and date a matched lot shows, and those of an open lot. *)
Definition matched_key (l : MatchedLot) : option Q * option Timestamp :=
  (cost_basis l, acquired l).

Definition open_key (o : OpenLot) : option Q * option Timestamp :=
  (Some (buy_price o), Some (buy_date o)).

(** How the loop stands against the queue [q0] it entered with: the lots
    with a cost basis are those of the lots [c] taken from the front, and
    the queue is what follows them, or the last of them was only partly
    used, is still the front lot, and nothing is left to sell. *)
Definition fifo_inv (q0 : list OpenLot) (s : LoopState) : Prop :=
  exists c,
    (map matched_key (filter has_cost (lots s)) = map open_key c /\
     q0 = c ++ queue s) \/
    (Qltb 0 (sell_qty s) = false /\
     exists f r left,
       map matched_key (filter has_cost (lots s)) = map open_key (c ++ [f]) /\
       q0 = c ++ f :: r /\
       queue s = mkLot left (buy_price f) (buy_date f) :: r /\
       0 < left /\ left < buy_qty f).

(** What a result says of its row and group, apart from the matching. *)
Definition sale_head (res : SaleResult)
  : Timestamp * string * string * Q * Q * list (string * Cell) :=
  (Date res, Identifier res, Currency res, Sell_Price res, Sell_Qty res,
   identifiers res).

(** The sale a row stands for: none unless it converts and its type is a
    Sell value and no Buy value. *)
Definition sells_of_row (key : string * string) (r : Row)
  : list (Timestamp * string * string * Q * Q * list (string * Cell)) :=
  match parse_row r with
  | inr (qty, price) =>
      if in_vals (row_type r) (buy_vals cfg) then []
      else if in_vals (row_type r) (sell_vals cfg) then
        [(row_date r, fst key, snd key, price, qty, row_extras r)]
      else []
  | inl _ => []
  end.

(** The warning a row causes. *)
Definition warn_of_row (r : Row) : list Warning :=
  match parse_row r with
  | inl c => [SkippingRow c]
  | inr _ => []
  end.

(** A group processed on its own, from nothing. *)
Definition group_alone (g : string * string * list Row) : State :=
  match process_group (mkState [] [] []) g with
  | Some st => st
  | None => mkState [] [] []
  end.

(** A matched lot as the loop records it for the sale price [price]:
    with a cost basis [c], the gain [used * (price - c)], rounded when the
    option is set; without one, no gain. *)
Definition gain_recorded (price : Q) (l : MatchedLot) : Prop :=
  sale_price l = price /\
  match cost_basis l with
  | Some c => gain l = Some (rounded (used_qty l * (price - c)))
  | None => gain l = None
  end.

(** The gains of the lots that have a cost basis, in the order of the
    lots. *)
Definition known_gains (price : Q) (ls : list MatchedLot) : list Q :=
  flat_map (fun l => match cost_basis l with
                     | Some c => [rounded (used_qty l * (price - c))]
                     | None => []
                     end) ls.

(** The matched lot [l] used up the open lot [o]. *)
Definition used_up (l : MatchedLot) (o : OpenLot) : Prop :=
  matched_key l = open_key o /\ Qeq_bool (used_qty l) (buy_qty o) = true.

(** The queue of the loop against the queue [q0] it entered with: the lots
    with a cost basis used up the lots [c] at the front and the queue is
    what follows them; or the last of them used only a part of the lot [f]
    that follows [c], the queue is [f] with the rest of its quantity and
    what follows it, and nothing is left to sell. *)
Definition rest_inv (q0 : list OpenLot) (s : LoopState) : Prop :=
  exists c,
    (Forall2 used_up (filter has_cost (lots s)) c /\ q0 = c ++ queue s) \/
    (Qltb 0 (sell_qty s) = false /\
     exists f r ks kl,
       filter has_cost (lots s) = ks ++ [kl] /\ Forall2 used_up ks c /\
       matched_key kl = open_key f /\
       used_qty kl < buy_qty f /\ 0 < buy_qty f - used_qty kl /\
       q0 = c ++ f :: r /\
       queue s =
         mkLot (buy_qty f - used_qty kl) (buy_price f) (buy_date f) :: r).

(** The lots of the loop against the queue [q0] it entered with: all with
    a cost basis; or all the lots of [q0], in order, then one lot of
    unknown origin for a quantity above 0, with the queue empty and
    nothing left to sell. *)
Definition exhaust_inv (price : Q) (q0 : list OpenLot) (s : LoopState) : Prop :=
  Forall (fun l => has_cost l = true) (lots s) \/
  (exists ks u,
     lots s = ks ++ [unknown_lot u price] /\
     Forall (fun l => has_cost l = true) ks /\
     map matched_key ks = map open_key q0 /\
     0 < u /\ queue s = [] /\ Qltb 0 (sell_qty s) = false).

(** ** Numbers: facts *)

Lemma Qltb_true (a b : Q) : Qltb a b = true <-> a < b.
Proof.
  unfold Qltb. rewrite Qlt_alt. destruct (a ?= b); split; congruence.
Qed.

Lemma Qltb_false (a b : Q) : Qltb a b = false <-> b <= a.
Proof.
  split; intro H.
  - apply Qnot_lt_le. intro L. apply Qltb_true in L. congruence.
  - destruct (Qltb a b) eqn:E; [|reflexivity].
    apply Qltb_true in E. exfalso. exact (Qlt_not_le _ _ E H).
Qed.

Lemma py_min_cases (a b : Q) :
  (py_min a b = b /\ b < a) \/ (py_min a b = a /\ a <= b).
Proof.
  unfold py_min. destruct (Qltb b a) eqn:E.
  - left. split; [reflexivity|]. now apply Qltb_true.
  - right. split; [reflexivity|]. now apply Qltb_false.
Qed.

Lemma py_min_le_l (a b : Q) : py_min a b <= a.
Proof.
  destruct (py_min_cases a b) as [[-> H]|[-> H]].
  - now apply Qlt_le_weak.
  - apply Qle_refl.
Qed.

(** When the minimum is not the second argument, it is the first one. *)
Lemma py_min_not_snd (a b : Q) :
  Qeq_bool (py_min a b) b = false -> py_min a b = a /\ a < b.
Proof.
  intro H. destruct (py_min_cases a b) as [[E L]|[E L]].
  - rewrite E in H. rewrite (proj2 (Qeq_bool_iff b b) (Qeq_refl b)) in H.
    discriminate.
  - split; [exact E|]. apply Qle_lteq in L. destruct L as [L|L]; [exact L|].
    rewrite E in H. apply Qeq_bool_iff in L. congruence.
Qed.

Lemma Qminus_self_not_pos (a : Q) : Qltb 0 (a - a) = false.
Proof.
  apply Qltb_false. setoid_replace (a - a) with 0 by ring. apply Qle_refl.
Qed.

(** ** The loop: it ends *)

Lemma sell_loop_exit (fuel : nat) (price : Q) (s : LoopState) :
  Qltb 0 (sell_qty s) = false -> sell_loop fuel price s = Some s.
Proof. intro H. destruct fuel; simpl; rewrite H; reflexivity. Qed.

(** A pass from [sell_qty > 0] drops the front lot or leaves nothing to sell. *)
Lemma sell_step_progress (price : Q) (s : LoopState) :
  (exists front, queue s = front :: queue (sell_step price s)) \/
  sell_qty (sell_step price s) = sell_qty s - sell_qty s.
Proof.
  unfold sell_step. destruct (queue s) as [|front rest] eqn:Eq; simpl.
  - right. reflexivity.
  - destruct (Qeq_bool (py_min (sell_qty s) (buy_qty front)) (buy_qty front))
      eqn:E.
    + left. exists front. reflexivity.
    + right. apply py_min_not_snd in E. destruct E as [-> _]. reflexivity.
Qed.

Lemma sell_loop_terminates (price : Q) :
  forall fuel s, (List.length (queue s) < fuel)%nat ->
    exists s', sell_loop fuel price s = Some s'.
Proof.
  induction fuel as [|n IH]; intros s Hlen; [lia|].
  simpl. destruct (Qltb 0 (sell_qty s)) eqn:G; [|eauto].
  destruct (sell_step_progress price s) as [[front Hq]|Hz].
  - apply IH. rewrite Hq in Hlen. simpl in Hlen. lia.
  - exists (sell_step price s). apply sell_loop_exit.
    rewrite Hz. apply Qminus_self_not_pos.
Qed.

(** More fuel does not change the outcome. *)
Lemma sell_loop_fuel (price : Q) :
  forall fuel s s', sell_loop fuel price s = Some s' ->
    forall fuel', (fuel <= fuel')%nat -> sell_loop fuel' price s = Some s'.
Proof.
  induction fuel as [|n IH]; intros s s' H fuel' Hle; simpl in H.
  - destruct (Qltb 0 (sell_qty s)) eqn:G; [discriminate|].
    rewrite sell_loop_exit; assumption.
  - destruct (Qltb 0 (sell_qty s)) eqn:G.
    + destruct fuel' as [|m]; [lia|]. simpl. rewrite G.
      apply IH; [assumption|lia].
    + rewrite sell_loop_exit; assumption.
Qed.

(** The loop, as a number of passes. *)
Lemma sell_loop_iter (price : Q) :
  forall fuel s s', sell_loop fuel price s = Some s' ->
    exists k, (k <= fuel)%nat /\ sell_iter k price s = Some s' /\
              Qltb 0 (sell_qty s') = false.
Proof.
  induction fuel as [|n IH]; intros s s' H; simpl in H.
  - destruct (Qltb 0 (sell_qty s)) eqn:G; [discriminate|].
    injection H as <-. exists O. simpl. auto.
  - destruct (Qltb 0 (sell_qty s)) eqn:G.
    + destruct (IH _ _ H) as (k & Hk & Hi & Hx).
      exists (S k). simpl. rewrite G. repeat split; [lia|assumption..].
    + injection H as <-. exists O. simpl. auto with arith.
Qed.

(** No run of the loop makes more passes than the queue has lots, plus one. *)
Lemma sell_iter_bound (price : Q) :
  forall k s s', sell_iter k price s = Some s' ->
    (k <= S (List.length (queue s)))%nat.
Proof.
  induction k as [|k IH]; intros s s' H; [lia|].
  simpl in H. destruct (Qltb 0 (sell_qty s)) eqn:G; [|discriminate].
  destruct (sell_step_progress price s) as [[front Hq]|Hz].
  - apply IH in H. rewrite Hq. simpl. lia.
  - destruct k as [|k]; [lia|]. simpl in H.
    rewrite Hz, Qminus_self_not_pos in H. discriminate.
Qed.

(** An invariant of the passes holds when the loop is left. *)
Lemma sell_loop_invariant (price : Q) (I : LoopState -> Prop) :
  (forall s, I s -> 0 < sell_qty s -> I (sell_step price s)) ->
  forall fuel s s', I s -> sell_loop fuel price s = Some s' ->
    I s' /\ sell_qty s' <= 0.
Proof.
  intros Hstep. induction fuel as [|n IH]; intros s s' Hi H; simpl in H;
    destruct (Qltb 0 (sell_qty s)) eqn:G; try discriminate.
  - injection H as <-. split; [assumption|]. now apply Qltb_false.
  - apply (IH (sell_step price s)); [|assumption].
    apply Hstep; [assumption|]. now apply Qltb_true.
  - injection H as <-. split; [assumption|]. now apply Qltb_false.
Qed.

Lemma sell_iter_invariant (price : Q) (I : LoopState -> Prop) :
  (forall s, I s -> 0 < sell_qty s -> I (sell_step price s)) ->
  forall k s s', I s -> sell_iter k price s = Some s' -> I s'.
Proof.
  intros Hstep. induction k as [|k IH]; intros s s' Hi H; simpl in H.
  - now injection H as <-.
  - destruct (Qltb 0 (sell_qty s)) eqn:G; [|discriminate].
    apply (IH (sell_step price s)); [|assumption].
    apply Hstep; [assumption|]. now apply Qltb_true.
Qed.

(** ** Rows and groups: what a run appends to [results] *)

Lemma process_row_total (key : string * string) (st : State) (r : Row) :
  exists st', process_row key st r = Some st'.
Proof.
  unfold process_row. destruct (parse_row r) as [c|[qty price]]; [eauto|].
  destruct (in_vals (row_type r) (buy_vals cfg)); [eauto|].
  destruct (in_vals (row_type r) (sell_vals cfg)); [|eauto].
  destruct (sell_loop_terminates price (S (List.length (fifo_queue st)))
              (loop_entry qty (fifo_queue st))) as [s Hs]; [simpl; lia|].
  rewrite Hs. eauto.
Qed.

Lemma parse_row_qty_nonneg (r : Row) (qty price : Q) :
  parse_row r = inr (qty, price) -> 0 <= qty.
Proof.
  unfold parse_row. destruct (to_float (row_qty r)); [|discriminate].
  destruct (to_float (row_price r)); [|discriminate].
  intro H. injection H as <- <-. apply Qabs_nonneg.
Qed.

Lemma process_row_results (key : string * string) (st st' : State) (r : Row) :
  process_row key st r = Some st' ->
  exists new, results st' = results st ++ new /\ Forall sale_of new.
Proof.
  unfold process_row. destruct (parse_row r) as [c|[qty price]] eqn:Ep.
  - intro H. injection H as <-. exists []. simpl. now rewrite app_nil_r.
  - destruct (in_vals (row_type r) (buy_vals cfg)).
    + intro H. injection H as <-. exists []. simpl. now rewrite app_nil_r.
    + destruct (in_vals (row_type r) (sell_vals cfg)).
      * destruct (sell_loop _ price _) as [s|] eqn:El; [|discriminate].
        intro H. injection H as <-. simpl. eexists. split; [reflexivity|].
        constructor; [|constructor].
        exists (S (List.length (fifo_queue st))), (fifo_queue st), s. simpl.
        repeat split; try assumption.
        eapply parse_row_qty_nonneg; eassumption.
      * intro H. injection H as <-. exists []. simpl. now rewrite app_nil_r.
Qed.

Lemma process_rows_results (key : string * string) :
  forall rows st, exists st' new,
    process_rows key st rows = Some st' /\
    results st' = results st ++ new /\ Forall sale_of new.
Proof.
  induction rows as [|r rest IH]; intro st; simpl.
  - exists st, []. rewrite app_nil_r. auto.
  - destruct (process_row_total key st r) as [st1 H1]. rewrite H1.
    destruct (process_row_results _ _ _ _ H1) as (n1 & E1 & F1).
    destruct (IH st1) as (st2 & n2 & H2 & E2 & F2).
    exists st2, (n1 ++ n2). split; [assumption|]. split.
    + rewrite E2, E1, app_assoc. reflexivity.
    + apply Forall_app. auto.
Qed.

(** ** Sums over matched lots *)

Lemma sum_used_snoc (ls : list MatchedLot) (l : MatchedLot) :
  sum_used (ls ++ [l]) == sum_used ls + used_qty l.
Proof.
  unfold sum_used. induction ls as [|x xs IH]; simpl.
  - ring.
  - rewrite IH. ring.
Qed.

Lemma sell_step_shape (price : Q) (s : LoopState) :
  Forall (fun l => has_cost l = true) (lots s) ->
  Forall (fun l => has_cost l = true) (lots (sell_step price s)) \/
  (trailing_unknown price (lots (sell_step price s)) /\
   Qltb 0 (sell_qty (sell_step price s)) = false).
Proof.
  intro Hk. unfold sell_step. destruct (queue s) as [|front rest]; simpl.
  - right. split; [|apply Qminus_self_not_pos].
    exists (lots s), [unknown_lot (sell_qty s) price]. eauto.
  - left. apply Forall_app. split; [assumption|]. repeat constructor.
Qed.

(** ** Properties of a sale *)

Lemma sale_of_sum_used (res : SaleResult) :
  sale_of res -> sum_used (Matched_Lots res) == Sell_Qty res.
Proof.
  intros (fuel & q & s & Hq & Hl & _ & ->).
  set (I := fun s : LoopState =>
              0 <= sell_qty s /\
              sum_used (lots s) + sell_qty s == Sell_Qty res).
  assert (HI : I s /\ sell_qty s <= 0).
  { apply (sell_loop_invariant (Sell_Price res) I) with (fuel := fuel)
      (s := loop_entry (Sell_Qty res) q); [| |assumption].
    - intros s0 [Hn Hs] Hp. unfold I, sell_step.
      destruct (queue s0) as [|front rest]; simpl; rewrite sum_used_snoc; simpl.
      + split; lra.
      + pose proof (py_min_le_l (sell_qty s0) (buy_qty front)). split; lra.
    - unfold I, loop_entry, sum_used. simpl. split; [assumption|ring]. }
  destruct HI as [[Hn Hs] Hz]. lra.
Qed.

Lemma sale_of_trailing_unknown (res : SaleResult) :
  sale_of res -> trailing_unknown (Sell_Price res) (Matched_Lots res).
Proof.
  intros (fuel & q & s & _ & Hl & _ & ->).
  set (K := fun l : MatchedLot => has_cost l = true).
  set (I := fun s : LoopState =>
              Forall K (lots s) \/
              (trailing_unknown (Sell_Price res) (lots s) /\
               Qltb 0 (sell_qty s) = false)).
  assert (HI : I s /\ sell_qty s <= 0).
  { apply (sell_loop_invariant (Sell_Price res) I) with (fuel := fuel)
      (s := loop_entry (Sell_Qty res) q); [| |assumption].
    - intros s0 [Hk|[_ Hx]] Hp.
      + apply sell_step_shape. exact Hk.
      + apply Qltb_true in Hp. congruence.
    - left. constructor. }
  destruct HI as [[Hk|[Ht _]] _]; [|assumption].
  exists (lots s), []. rewrite app_nil_r. auto.
Qed.

Lemma sell_loop_sum_used_entry (price qty : Q) (q0 : list OpenLot) :
  0 <= qty ->
  exists s,
    sell_loop (S (List.length q0)) price (loop_entry qty q0) = Some s /\
    sum_used (lots s) == qty.
Proof.
  intro Hq.
  destruct (sell_loop_terminates price (S (List.length q0))
              (loop_entry qty q0)) as [s Hs]; [simpl; lia|].
  exists s. split; [assumption|].
  apply (sale_of_sum_used
           (mkResult NaT EmptyString EmptyString price qty (total_gain s)
                     (lots s) [])).
  exists (S (List.length q0)), q0, s. simpl. auto.
Qed.

Lemma process_row_sell (key : string * string) (st : State) (r : Row)
  (raw price : Q) (s : LoopState) :
  in_vals (row_type r) (buy_vals cfg) = false ->
  in_vals (row_type r) (sell_vals cfg) = true ->
  to_float (row_qty r) = Some raw ->
  to_float (row_price r) = Some price ->
  sell_loop (S (List.length (fifo_queue st))) price
            (loop_entry (Qabs raw) (fifo_queue st)) = Some s ->
  process_row key st r =
  Some (mkState (queue s)
                (results st ++
                   [mkResult (row_date r) (fst key) (snd key) price
                             (Qabs raw) (total_gain s) (lots s)
                             (row_extras r)])
                (warnings st)).
Proof.
  intros Hb Hs Hq Hp Hl. unfold process_row, parse_row.
  rewrite Hq, Hp, Hb, Hs, Hl. reflexivity.
Qed.

(** C1.  A sell row, whatever the queue holds when it is processed (nothing,
    lots partly used, anything), appends one result whose quantity is the
    quantity of the row without its sign and whose matched lots are those
    the loop recorded; their used quantities add up to that quantity, in
    exact arithmetic. *)
Theorem sell_row_used_quantities_sum_to_its_quantity :
  forall key st r raw price,
    in_vals (row_type r) (buy_vals cfg) = false ->
    in_vals (row_type r) (sell_vals cfg) = true ->
    to_float (row_qty r) = Some raw ->
    to_float (row_price r) = Some price ->
    exists s,
      sell_loop (S (List.length (fifo_queue st))) price
                (loop_entry (Qabs raw) (fifo_queue st)) = Some s /\
      process_row key st r =
      Some (mkState (queue s)
                    (results st ++
                       [mkResult (row_date r) (fst key) (snd key) price
                                 (Qabs raw) (total_gain s) (lots s)
                                 (row_extras r)])
                    (warnings st)) /\
      sum_used (lots s) == Qabs raw.
Proof.
  intros key st r raw price Hb Hs Hq Hp.
  destruct (sell_loop_sum_used_entry price (Qabs raw) (fifo_queue st)
              (Qabs_nonneg raw)) as (s & Hl & Hsum).
  exists s. split; [assumption|]. split; [|assumption].
  now apply process_row_sell.
Qed.

Lemma known_gains_snoc (price : Q) (ls : list MatchedLot) (l : MatchedLot) :
  known_gains price (ls ++ [l]) =
  known_gains price ls ++
  match cost_basis l with
  | Some c => [rounded (used_qty l * (price - c))]
  | None => []
  end.
Proof.
  unfold known_gains. rewrite flat_map_app. simpl. now rewrite app_nil_r.
Qed.

Lemma sell_step_gains (price : Q) (s : LoopState) :
  total_gain s = fold_left Qplus (known_gains price (lots s)) 0 /\
  Forall (gain_recorded price) (lots s) ->
  total_gain (sell_step price s) =
    fold_left Qplus (known_gains price (lots (sell_step price s))) 0 /\
  Forall (gain_recorded price) (lots (sell_step price s)).
Proof.
  intros [Ht Hr]. unfold sell_step.
  destruct (queue s) as [|front rest]; cbn [lots total_gain];
    rewrite known_gains_snoc; cbn [cost_basis unknown_lot known_lot used_qty].
  - rewrite app_nil_r. split; [assumption|].
    apply Forall_app. split; [assumption|].
    constructor; [|constructor]. split; reflexivity.
  - rewrite fold_left_app. simpl. rewrite <- Ht. split; [reflexivity|].
    apply Forall_app. split; [assumption|].
    constructor; [|constructor]. split; reflexivity.
Qed.

(** C2.  A sell row appends one result whose total gain is the running
    total of the loop: 0, to which the gains of the matched lots that have a
    cost basis were added one after the other in the order of the lots, each
    gain being [used * (price - cost basis)] and rounded to two decimals
    before it is added when [round_gains] is set; a matched lot without a
    cost basis records no gain and adds nothing. *)
Theorem sell_row_total_gain_is_the_sum_of_lot_gains :
  forall key st r raw price,
    in_vals (row_type r) (buy_vals cfg) = false ->
    in_vals (row_type r) (sell_vals cfg) = true ->
    to_float (row_qty r) = Some raw ->
    to_float (row_price r) = Some price ->
    exists s,
      sell_loop (S (List.length (fifo_queue st))) price
                (loop_entry (Qabs raw) (fifo_queue st)) = Some s /\
      process_row key st r =
      Some (mkState (queue s)
                    (results st ++
                       [mkResult (row_date r) (fst key) (snd key) price
                                 (Qabs raw) (total_gain s) (lots s)
                                 (row_extras r)])
                    (warnings st)) /\
      total_gain s =
        fold_left Qplus
          (flat_map (fun l =>
                       match cost_basis l with
                       | Some c =>
                           [if round_gains cfg
                            then py_round2 (used_qty l * (price - c))
                            else used_qty l * (price - c)]
                       | None => []
                       end) (lots s)) 0 /\
      Forall (fun l =>
                sale_price l = price /\
                match cost_basis l with
                | Some c =>
                    gain l =
                    Some (if round_gains cfg
                          then py_round2 (used_qty l * (price - c))
                          else used_qty l * (price - c))
                | None => gain l = None
                end) (lots s).
Proof.
  intros key st r raw price Hb Hs Hq Hp.
  destruct (sell_loop_terminates price (S (List.length (fifo_queue st)))
              (loop_entry (Qabs raw) (fifo_queue st))) as [s Hl];
    [simpl; lia|].
  exists s. split; [assumption|].
  split; [now apply process_row_sell|].
  apply (sell_loop_invariant price
           (fun s => total_gain s =
                       fold_left Qplus (known_gains price (lots s)) 0 /\
                     Forall (gain_recorded price) (lots s))) in Hl.
  - exact (proj1 Hl).
  - intros s0 H0 _. now apply sell_step_gains.
  - split; [reflexivity|constructor].
Qed.

(** C5.  When the loop finds the queue empty with a quantity still to
    match, the whole of that quantity becomes one matched lot without cost
    basis, acquisition date or gain, the total gain is left as it was, and
    the loop ends there; hence the lots of every sale are lots with a cost
    basis followed by at most one lot of unknown origin. *)
Theorem unknown_origin_is_one_trailing_lot :
  (forall price s fuel,
      queue s = [] -> 0 < sell_qty s ->
      sell_loop (S fuel) price s =
      Some (mkLoop (sell_qty s - sell_qty s) (total_gain s)
                   (lots s ++ [mkMatched (sell_qty s) None None price None])
                   [])) /\
  (forall key st rows, exists st' new,
      process_rows key st rows = Some st' /\
      results st' = results st ++ new /\
      Forall (fun res => trailing_unknown (Sell_Price res) (Matched_Lots res))
             new).
Proof.
  split.
  - intros price s fuel Hq Hp. simpl.
    rewrite (proj2 (Qltb_true _ _) Hp).
    unfold sell_step. rewrite Hq. apply sell_loop_exit. simpl.
    apply Qminus_self_not_pos.
  - intros key st rows.
    destruct (process_rows_results key rows st) as (st' & new & H & E & F).
    exists st', new. repeat split; try assumption.
    eapply Forall_impl; [|exact F]. apply sale_of_trailing_unknown.
Qed.

(** C10.  The sell loop ends on every input: a pass either removes the
    front lot from the queue or leaves nothing to sell, so the loop is left
    after at most [length queue + 1] passes, and no run of it makes more. *)
Theorem sell_loop_ends_within_queue_length_plus_one :
  forall price s,
    ((exists front, queue s = front :: queue (sell_step price s)) \/
     sell_qty (sell_step price s) == 0) /\
    (exists k s',
       (k <= List.length (queue s) + 1)%nat /\
       sell_iter k price s = Some s' /\
       Qltb 0 (sell_qty s') = false /\
       forall fuel, (List.length (queue s) < fuel)%nat ->
                    sell_loop fuel price s = Some s') /\
    (forall k s', sell_iter k price s = Some s' ->
                  (k <= List.length (queue s) + 1)%nat).
Proof.
  intros price s. split; [|split].
  - destruct (sell_step_progress price s) as [H|H]; [now left|].
    right. rewrite H. ring.
  - destruct (sell_loop_terminates price (S (List.length (queue s))) s)
      as [s' Hs]; [lia|].
    destruct (sell_loop_iter _ _ _ _ Hs) as (k & Hk & Hi & Hx).
    exists k, s'. repeat split; [lia|assumption..|].
    intros fuel Hf. eapply sell_loop_fuel; [exact Hs|lia].
  - intros k s' H. apply sell_iter_bound in H. lia.
Qed.

(** ** Rows that leave the queue and the results alone *)

(** The queue and the results a row produces do not depend on the warnings
    shown before it, and the warnings only grow. *)
Lemma process_row_warnings (key : string * string) (r : Row) :
  forall q res, exists q' res' ws, forall w0,
    process_row key (mkState q res w0) r = Some (mkState q' res' (w0 ++ ws)).
Proof.
  intros q res. unfold process_row. cbn [fifo_queue results warnings].
  destruct (parse_row r) as [c|[qty price]].
  - exists q, res, [SkippingRow c]. reflexivity.
  - destruct (in_vals (row_type r) (buy_vals cfg)).
    + eexists _, _, []. intro w0. rewrite app_nil_r. reflexivity.
    + destruct (in_vals (row_type r) (sell_vals cfg)).
      * destruct (sell_loop_terminates price (S (List.length q))
                    (loop_entry qty q)) as [s Hs]; [simpl; lia|].
        rewrite Hs. eexists _, _, []. intro w0. rewrite app_nil_r.
        reflexivity.
      * exists q, res, []. intro w0. rewrite app_nil_r. reflexivity.
Qed.

Lemma process_rows_warnings (key : string * string) :
  forall rows q res, exists q' res' ws, forall w0,
    process_rows key (mkState q res w0) rows =
    Some (mkState q' res' (w0 ++ ws)).
Proof.
  induction rows as [|r rest IH]; intros q res; simpl.
  - exists q, res, []. intro w0. rewrite app_nil_r. reflexivity.
  - destruct (process_row_warnings key r q res) as (q1 & res1 & ws1 & H1).
    destruct (IH q1 res1) as (q2 & res2 & ws2 & H2).
    exists q2, res2, (ws1 ++ ws2). intro w0.
    rewrite H1, H2, app_assoc. reflexivity.
Qed.

Lemma parse_row_fails (r : Row) :
  to_float (row_qty r) = None \/ to_float (row_price r) = None ->
  exists c, parse_row r = inl c /\ (c = row_qty r \/ c = row_price r).
Proof.
  unfold parse_row. intros [H|H].
  - rewrite H. eauto.
  - destruct (to_float (row_qty r)); [rewrite H|]; eauto.
Qed.

(** C6.  A sell row whose quantity is 0 yields a result with no matched
    lots and a total gain of 0, leaves the queue as it was, and shows no
    warning. *)
Theorem zero_quantity_sell_matches_nothing :
  forall key st r raw price,
    in_vals (row_type r) (buy_vals cfg) = false ->
    in_vals (row_type r) (sell_vals cfg) = true ->
    to_float (row_qty r) = Some raw -> raw == 0 ->
    to_float (row_price r) = Some price ->
    process_row key st r =
    Some (mkState (fifo_queue st)
                  (results st ++
                     [mkResult (row_date r) (fst key) (snd key) price
                               (Qabs raw) 0 [] (row_extras r)])
                  (warnings st)).
Proof.
  intros key st r raw price Hb Hs Hq Hz Hp.
  unfold process_row, parse_row. rewrite Hq, Hp, Hb, Hs.
  rewrite sell_loop_exit; [reflexivity|].
  simpl. apply Qltb_false. rewrite Hz. simpl. apply Qle_refl.
Qed.

(** C7.  With no Buy value or no Sell value selected the script stops with
    the configuration error, whether or not the button is pressed: the
    calculation is not run and no result is produced. *)
Theorem empty_selection_stops_before_calculation :
  forall pressed df,
    buy_vals cfg = [] \/ sell_vals cfg = [] ->
    run_app pressed df = Some (Stopped config_error).
Proof.
  intros pressed df [H|H]; unfold run_app; rewrite H; simpl.
  - reflexivity.
  - rewrite orb_true_r. reflexivity.
Qed.

(** C8.  A row whose quantity or price does not convert to a number is
    dropped with one warning: the queue and the results are as before it,
    the rows after it are processed, and they give the queue and the results
    they give without that row. *)
Theorem unconvertible_row_is_skipped_alone :
  forall key st r rest,
    to_float (row_qty r) = None \/ to_float (row_price r) = None ->
    exists c,
      (c = row_qty r \/ c = row_price r) /\
      process_row key st r =
      Some (mkState (fifo_queue st) (results st)
                    (warnings st ++ [SkippingRow c])) /\
      exists q' res' ws,
        process_rows key st (r :: rest) =
        Some (mkState q' res' (warnings st ++ SkippingRow c :: ws)) /\
        process_rows key st rest = Some (mkState q' res' (warnings st ++ ws)).
Proof.
  intros key st r rest H.
  destruct (parse_row_fails r H) as (c & Hc & Hor).
  exists c. split; [assumption|].
  assert (Hrow : process_row key st r =
                 Some (mkState (fifo_queue st) (results st)
                               (warnings st ++ [SkippingRow c]))).
  { unfold process_row. rewrite Hc. reflexivity. }
  split; [assumption|].
  destruct (process_rows_warnings key rest (fifo_queue st) (results st))
    as (q' & res' & ws & Hws).
  exists q', res', ws. simpl. rewrite Hrow, Hws. split.
  - rewrite <- app_assoc. reflexivity.
  - destruct st as [q res w]. apply Hws.
Qed.

(** C9, as the code has it.  A row whose type is neither a Buy value nor a
    Sell value leaves the queue and the results as they were; it shows no
    warning when its quantity and its price convert to numbers (and the one
    warning of a skipped row when they do not). *)
Theorem unclassified_row_changes_nothing :
  forall key st r,
    in_vals (row_type r) (buy_vals cfg) = false ->
    in_vals (row_type r) (sell_vals cfg) = false ->
    exists st',
      process_row key st r = Some st' /\
      fifo_queue st' = fifo_queue st /\ results st' = results st /\
      (forall qty price,
          to_float (row_qty r) = Some qty ->
          to_float (row_price r) = Some price -> st' = st) /\
      (to_float (row_qty r) = None \/ to_float (row_price r) = None ->
       exists c, warnings st' = warnings st ++ [SkippingRow c]).
Proof.
  intros key st r Hb Hs. unfold process_row, parse_row.
  destruct (to_float (row_qty r)) as [q|]; [destruct (to_float (row_price r)) as [p|]|].
  - rewrite Hb, Hs. exists st. repeat split; auto.
    intros [H|H]; discriminate.
  - eexists. split; [reflexivity|]. simpl. repeat split; eauto.
    intros qty price _ H. discriminate.
  - eexists. split; [reflexivity|]. simpl. repeat split; eauto.
    intros qty price H. discriminate.
Qed.

(** ** The queue while a group is processed *)

Lemma buy_lots_app (xs ys : list Row) :
  buy_lots (xs ++ ys) = buy_lots xs ++ buy_lots ys.
Proof. unfold buy_lots. apply flat_map_app. Qed.

Lemma sell_step_queue_ok (L : list (Q * Timestamp)) (price : Q) (s : LoopState) :
  queue_ok L (queue s) -> 0 < sell_qty s -> queue_ok L (queue (sell_step price s)).
Proof.
  intros [Hpos [before HL]] Hp. unfold sell_step.
  destruct (queue s) as [|front rest]; simpl.
  - split; [constructor|]. exists before. assumption.
  - destruct (Qeq_bool (py_min (sell_qty s) (buy_qty front)) (buy_qty front))
      eqn:E.
    + split; [now inversion Hpos|].
      exists (before ++ [lot_key front]). rewrite <- app_assoc. exact HL.
    + apply py_min_not_snd in E. destruct E as [-> Hlt].
      split.
      * constructor; [|now inversion Hpos]. unfold lot_pos. simpl. lra.
      * exists before. exact HL.
Qed.

Lemma process_row_queue_ok (key : string * string) (done : list Row)
  (st st' : State) (r : Row) :
  queue_ok (map lot_key (buy_lots done)) (fifo_queue st) ->
  Forall lot_pos (buy_lot_of r) ->
  process_row key st r = Some st' ->
  queue_ok (map lot_key (buy_lots (done ++ [r]))) (fifo_queue st').
Proof.
  intros Hok Hr. rewrite buy_lots_app. unfold buy_lots at 2. simpl.
  rewrite app_nil_r. revert Hr. unfold buy_lot_of, process_row.
  destruct (parse_row r) as [c|[qty price]].
  - intros _ H. injection H as <-. simpl. now rewrite app_nil_r.
  - destruct (in_vals (row_type r) (buy_vals cfg)).
    + intros Hr H. injection H as <-. simpl.
      destruct Hok as [Hpos [before HL]]. split.
      * apply Forall_app. split; assumption.
      * exists before. rewrite !map_app, HL, app_assoc. reflexivity.
    + intros _. rewrite app_nil_r.
      destruct (in_vals (row_type r) (sell_vals cfg)).
      * destruct (sell_loop _ price _) as [s|] eqn:El; [|discriminate].
        intro H. injection H as <-. simpl.
        apply (sell_loop_invariant price
                 (fun s => queue_ok (map lot_key (buy_lots done)) (queue s)))
          in El; [exact (proj1 El)| |assumption].
        intros s0 H0 Hp0. now apply sell_step_queue_ok.
      * intro H. injection H as <-. assumption.
Qed.

Lemma process_rows_queue_ok (key : string * string) :
  forall rows done st st',
    queue_ok (map lot_key (buy_lots done)) (fifo_queue st) ->
    Forall lot_pos (buy_lots rows) ->
    process_rows key st rows = Some st' ->
    queue_ok (map lot_key (buy_lots (done ++ rows))) (fifo_queue st').
Proof.
  induction rows as [|r rest IH]; intros done st st' Hok Hpos H; simpl in H.
  - injection H as <-. now rewrite app_nil_r.
  - destruct (process_row key st r) as [st1|] eqn:E1; [|discriminate].
    change (r :: rest) with ([r] ++ rest) in *.
    rewrite buy_lots_app in Hpos. apply Forall_app in Hpos.
    destruct Hpos as [Hr Hrest]. unfold buy_lots in Hr. simpl in Hr.
    rewrite app_nil_r in Hr.
    rewrite app_assoc. apply (IH (done ++ [r]) st1); try assumption.
    eapply process_row_queue_ok; eassumption.
Qed.

Lemma StronglySorted_middle {A : Type} (R : A -> A -> Prop) :
  forall xs ys zs : list A,
    StronglySorted R (xs ++ ys ++ zs) -> StronglySorted R ys.
Proof.
  induction xs as [|x xs IH]; intros ys zs H; simpl in H.
  - induction ys as [|y ys IHy]; [constructor|]. simpl in H.
    apply StronglySorted_inv in H. destruct H as [Hs Hf].
    constructor; [auto|]. apply Forall_app in Hf. exact (proj1 Hf).
  - apply StronglySorted_inv in H. apply (IH ys zs). exact (proj1 H).
Qed.

Lemma StronglySorted_map {A B : Type} (f : A -> B) (R : B -> B -> Prop) :
  forall l : list A,
    StronglySorted R (map f l) <-> StronglySorted (fun a b => R (f a) (f b)) l.
Proof.
  induction l as [|x l IH]; simpl; split; intro H; try constructor;
    apply StronglySorted_inv in H; destruct H as [Hs Hf].
  - now apply IH.
  - rewrite Forall_forall in *. intros b Hb. apply Hf. now apply in_map.
  - now apply IH.
  - rewrite Forall_forall in *. intros b Hb.
    apply in_map_iff in Hb. destruct Hb as (a & <- & Ha). now apply Hf.
Qed.

Lemma buy_lots_dates (P : Timestamp -> Prop) :
  forall rows, Forall (fun r => P (row_date r)) rows ->
    Forall (fun l => P (buy_date l)) (buy_lots rows).
Proof.
  induction rows as [|r rest IH]; intro H; [constructor|].
  inversion H as [|? ? Hr Hrest]; subst.
  change (r :: rest) with ([r] ++ rest). rewrite buy_lots_app.
  apply Forall_app. split; [|auto].
  unfold buy_lots. simpl. rewrite app_nil_r. unfold buy_lot_of.
  destruct (parse_row r) as [c|[qty price]]; [constructor|].
  destruct (in_vals (row_type r) (buy_vals cfg)); repeat constructor.
  assumption.
Qed.

Lemma buy_lots_sorted :
  forall rows, StronglySorted by_row_date rows ->
    StronglySorted by_buy_date (buy_lots rows).
Proof.
  induction rows as [|r rest IH]; intro H; [constructor|].
  apply StronglySorted_inv in H. destruct H as [Hs Hf].
  change (r :: rest) with ([r] ++ rest). rewrite buy_lots_app.
  unfold buy_lots at 1. simpl. rewrite app_nil_r. unfold buy_lot_of.
  destruct (parse_row r) as [c|[qty price]]; [now apply IH|].
  destruct (in_vals (row_type r) (buy_vals cfg)); [|now apply IH].
  simpl. constructor; [now apply IH|].
  apply (buy_lots_dates (date_le (row_date r))). exact Hf.
Qed.

(** The keys of a queue that sits inside a date-sorted list of lots are in
    date order. *)
Lemma queue_sorted_of_keys (all q : list OpenLot) (before after : list (Q * Timestamp)) :
  StronglySorted by_buy_date all ->
  map lot_key all = before ++ map lot_key q ++ after ->
  StronglySorted by_buy_date q.
Proof.
  intros Hs He.
  apply (StronglySorted_map buy_date date_le).
  apply (StronglySorted_map buy_date date_le) in Hs.
  assert (Hd : forall l : list OpenLot, map buy_date l = map snd (map lot_key l)).
  { intro l. rewrite map_map. reflexivity. }
  rewrite Hd in Hs. rewrite Hd. rewrite He, !map_app in Hs.
  eapply StronglySorted_middle. exact Hs.
Qed.

Lemma queue_ok_inv (pre suf : list Row) (q : list OpenLot) :
  StronglySorted by_row_date (pre ++ suf) ->
  queue_ok (map lot_key (buy_lots pre)) q ->
  queue_inv (pre ++ suf) q.
Proof.
  intros Hs [Hpos [before HL]].
  assert (He : map lot_key (buy_lots (pre ++ suf)) =
               before ++ map lot_key q ++ map lot_key (buy_lots suf)).
  { rewrite buy_lots_app, map_app, HL, app_assoc. reflexivity. }
  split; [assumption|]. split.
  - eapply queue_sorted_of_keys; [|exact He]. now apply buy_lots_sorted.
  - eauto.
Qed.

(** C3, as the code has it.  In a group whose rows come in date order and
    whose Buy rows all have a quantity other than 0, at every point of the
    processing (after each row, after each pass of a sell loop) the queue
    holds only lots of positive quantity, in non-decreasing order of
    acquisition date, and they are consecutive lots of the Buy rows in the
    order of the input. *)
Theorem queue_holds_positive_lots_in_input_order :
  forall key rows,
    StronglySorted by_row_date rows ->
    Forall lot_pos (buy_lots rows) ->
    forall q, visited key rows q -> queue_inv rows q.
Proof.
  intros key rows Hs Hpos q Hv.
  destruct Hv as [pre suf res0 w0 st -> Hrun
                 |pre r suf res0 w0 st qty price k s -> Hrun Hparse Hb Hsell Hit].
  - apply queue_ok_inv; [assumption|].
    rewrite buy_lots_app in Hpos. apply Forall_app in Hpos.
    apply (process_rows_queue_ok key pre [] (mkState [] res0 w0) st);
      [|exact (proj1 Hpos)|assumption].
    split; [constructor|]. exists []. reflexivity.
  - apply queue_ok_inv; [assumption|].
    rewrite buy_lots_app in Hpos. apply Forall_app in Hpos.
    assert (Hst : queue_ok (map lot_key (buy_lots pre)) (fifo_queue st)).
    { apply (process_rows_queue_ok key pre [] (mkState [] res0 w0) st);
        [|exact (proj1 Hpos)|assumption].
      split; [constructor|]. exists []. reflexivity. }
    apply (sell_iter_invariant price
             (fun s => queue_ok (map lot_key (buy_lots pre)) (queue s))
             (fun s0 H0 Hp0 => sell_step_queue_ok _ price s0 H0 Hp0)
             k (loop_entry qty (fifo_queue st)) s Hst Hit).
Qed.

(** ** A sale against the queue it finds *)

Lemma sell_loop_entry_total (price qty : Q) (q0 : list OpenLot) :
  exists s,
    sell_loop (S (List.length q0)) price (loop_entry qty q0) = Some s.
Proof. apply sell_loop_terminates. simpl. lia. Qed.

Lemma filter_has_cost_snoc (ls : list MatchedLot) (l : MatchedLot) :
  filter has_cost (ls ++ [l]) =
  filter has_cost ls ++ (if has_cost l then [l] else []).
Proof. rewrite filter_app. reflexivity. Qed.

Lemma sell_step_fifo_inv (price : Q) (q0 : list OpenLot) (s : LoopState) :
  fifo_inv q0 s -> 0 < sell_qty s -> fifo_inv q0 (sell_step price s).
Proof.
  intros [c [[Hk Hq]|[Hx _]]] Hp;
    [|apply Qltb_true in Hp; congruence].
  unfold fifo_inv, sell_step. destruct (queue s) as [|front rest] eqn:Eq.
  - exists c. left. cbn [lots queue]. rewrite filter_has_cost_snoc. simpl.
    rewrite app_nil_r. auto.
  - cbn [lots queue sell_qty]. rewrite filter_has_cost_snoc.
    cbn [has_cost known_lot cost_basis].
    destruct (Qeq_bool (py_min (sell_qty s) (buy_qty front)) (buy_qty front))
      eqn:E.
    + exists (c ++ [front]). left. split.
      * rewrite !map_app, Hk. reflexivity.
      * rewrite <- app_assoc. exact Hq.
    + apply py_min_not_snd in E. destruct E as [-> Hlt].
      exists c. right. split; [apply Qminus_self_not_pos|].
      exists front, rest, (buy_qty front - sell_qty s).
      split; [rewrite !map_app, Hk; reflexivity|].
      split; [exact Hq|]. split; [reflexivity|]. split; lra.
Qed.

Lemma sell_loop_fifo_inv (fuel : nat) (price qty : Q) (q0 : list OpenLot)
  (s : LoopState) :
  sell_loop fuel price (loop_entry qty q0) = Some s -> fifo_inv q0 s.
Proof.
  intro H.
  apply (sell_loop_invariant price (fifo_inv q0)) in H; [exact (proj1 H)| |].
  - intros s0 H0 Hp. now apply sell_step_fifo_inv.
  - exists []. left. split; reflexivity.
Qed.

Lemma firstn_exact {A : Type} (xs ys : list A) :
  firstn (List.length xs) (xs ++ ys) = xs.
Proof.
  rewrite firstn_app, Nat.sub_diag, firstn_all. simpl. apply app_nil_r.
Qed.

Lemma skipn_exact {A : Type} (xs ys : list A) :
  skipn (List.length xs) (xs ++ ys) = ys.
Proof.
  rewrite skipn_app, Nat.sub_diag, skipn_all. reflexivity.
Qed.

(** X1.  First in, first out: the lots of a sale that have a cost basis
    show, in order, the prices and dates of the first lots of the queue the
    sale found, whatever the quantities and the price. *)
Theorem matched_lots_are_the_front_of_the_queue :
  forall price qty q0, exists s n,
    sell_loop (S (List.length q0)) price (loop_entry qty q0) = Some s /\
    map matched_key (filter has_cost (lots s)) = map open_key (firstn n q0).
Proof.
  intros price qty q0.
  destruct (sell_loop_entry_total price qty q0) as [s Hs].
  destruct (sell_loop_fifo_inv _ _ _ _ _ Hs)
    as [c [[Hk Hq]|[_ (f & r & left & Hk & Hq & _)]]].
  - exists s, (List.length c). split; [assumption|].
    rewrite Hq, firstn_exact. exact Hk.
  - exists s, (List.length (c ++ [f])). split; [assumption|].
    rewrite Hq. change (f :: r) with ([f] ++ r).
    rewrite app_assoc, firstn_exact. exact Hk.
Qed.

Lemma filter_has_cost_all (ls : list MatchedLot) :
  Forall (fun l => has_cost l = true) ls -> filter has_cost ls = ls.
Proof.
  induction 1 as [|l ls Hl _ IH]; [reflexivity|].
  simpl. rewrite Hl, IH. reflexivity.
Qed.

Lemma Forall2_snoc {A B : Type} (R : A -> B -> Prop) (xs : list A)
  (ys : list B) (x : A) (y : B) :
  Forall2 R xs ys -> R x y -> Forall2 R (xs ++ [x]) (ys ++ [y]).
Proof. intros H Hxy. apply Forall2_app; [assumption|]. now constructor. Qed.

Lemma sell_step_rest_inv (price : Q) (q0 : list OpenLot) (s : LoopState) :
  rest_inv q0 s -> 0 < sell_qty s -> rest_inv q0 (sell_step price s).
Proof.
  intros [c [[Hk Hq]|[Hx _]]] Hp;
    [|apply Qltb_true in Hp; congruence].
  unfold rest_inv, sell_step. destruct (queue s) as [|front rest] eqn:Eq.
  - exists c. left. cbn [lots queue]. rewrite filter_has_cost_snoc. simpl.
    rewrite app_nil_r. auto.
  - cbn [lots queue sell_qty]. rewrite filter_has_cost_snoc.
    cbn [has_cost known_lot cost_basis].
    destruct (Qeq_bool (py_min (sell_qty s) (buy_qty front)) (buy_qty front))
      eqn:E.
    + exists (c ++ [front]). left. split.
      * apply Forall2_snoc; [assumption|]. split; [reflexivity|exact E].
      * rewrite <- app_assoc. exact Hq.
    + apply py_min_not_snd in E. destruct E as [-> Hlt].
      exists c. right. split; [apply Qminus_self_not_pos|].
      eexists front, rest, _, _. split; [reflexivity|].
      split; [assumption|]. split; [reflexivity|].
      unfold known_lot. cbn [used_qty].
      split; [assumption|]. split; [lra|]. split; [exact Hq|reflexivity].
Qed.

(** X2.  What a sale leaves in the queue is what it did not use of the
    queue it found.  Either its lots with a cost basis used up, one for
    one and in order, the first lots of the queue, and the queue left is
    exactly the lots after them; or the last of them used less than the lot
    it was taken from, and the queue left is that lot with its quantity
    less the used one, which is above 0, followed by the lots after it. *)
Theorem queue_after_sale_is_what_was_not_used :
  forall price qty q0, exists s,
    sell_loop (S (List.length q0)) price (loop_entry qty q0) = Some s /\
    rest_inv q0 s.
Proof.
  intros price qty q0.
  destruct (sell_loop_entry_total price qty q0) as [s Hs].
  exists s. split; [assumption|].
  apply (sell_loop_invariant price (rest_inv q0)) in Hs;
    [exact (proj1 Hs)| |].
  - intros s0 H0 Hp. now apply sell_step_rest_inv.
  - exists []. left. split; [constructor|reflexivity].
Qed.

Lemma sell_step_exhaust_inv (price : Q) (q0 : list OpenLot) (s : LoopState) :
  fifo_inv q0 s /\ exhaust_inv price q0 s -> 0 < sell_qty s ->
  exhaust_inv price q0 (sell_step price s).
Proof.
  intros [[c Hf] He] Hp.
  assert (Hg : Qltb 0 (sell_qty s) = true) by now apply Qltb_true.
  destruct Hf as [[Hk Hq]|[Hx _]]; [|congruence].
  destruct He as [Hall|(ks & u & _ & _ & _ & _ & _ & Hx)]; [|congruence].
  unfold exhaust_inv, sell_step. destruct (queue s) as [|front rest] eqn:Eq;
    cbn [lots queue sell_qty].
  - right. exists (lots s), (sell_qty s). split; [reflexivity|].
    split; [assumption|]. rewrite app_nil_r in Hq. subst c.
    rewrite (filter_has_cost_all _ Hall) in Hk.
    repeat split; try assumption. apply Qminus_self_not_pos.
  - left. apply Forall_app. split; [assumption|]. repeat constructor.
Qed.

(** X4.  A sale records a lot of unknown origin only once it has gone
    through the whole queue: either every matched lot has a cost basis, or
    the matched lots are the lots of the queue the sale found, all of them
    and in order, followed by one lot of unknown origin for a quantity
    above 0, and the queue is left empty. *)
Theorem unknown_lot_only_after_the_whole_queue :
  forall price qty q0, exists s,
    sell_loop (S (List.length q0)) price (loop_entry qty q0) = Some s /\
    exhaust_inv price q0 s.
Proof.
  intros price qty q0.
  destruct (sell_loop_entry_total price qty q0) as [s Hs].
  exists s. split; [assumption|].
  apply (sell_loop_invariant price
           (fun s => fifo_inv q0 s /\ exhaust_inv price q0 s)) in Hs;
    [exact (proj2 (proj1 Hs))| |].
  - intros s0 H0 Hp. split.
    + apply sell_step_fifo_inv; [exact (proj1 H0)|assumption].
    + now apply sell_step_exhaust_inv.
  - split; [exists []; left; split; reflexivity|left; constructor].
Qed.

Lemma sell_step_used_pos (price : Q) (s : LoopState) :
  Forall lot_pos (queue s) /\ Forall (fun l => 0 < used_qty l) (lots s) ->
  0 < sell_qty s ->
  Forall lot_pos (queue (sell_step price s)) /\
  Forall (fun l => 0 < used_qty l) (lots (sell_step price s)).
Proof.
  intros [Hq Hl] Hp. unfold sell_step.
  destruct (queue s) as [|front rest] eqn:Eq; cbn [lots queue].
  - split; [constructor|]. apply Forall_app. split; [assumption|].
    repeat constructor. assumption.
  - inversion Hq as [|? ? Hf Hr]; subst. unfold lot_pos in Hf. split.
    + destruct (Qeq_bool (py_min (sell_qty s) (buy_qty front))
                  (buy_qty front)) eqn:E; [assumption|].
      apply py_min_not_snd in E. destruct E as [-> Hlt].
      constructor; [|assumption]. unfold lot_pos. simpl. lra.
    + apply Forall_app. split; [assumption|]. repeat constructor. simpl.
      destruct (py_min_cases (sell_qty s) (buy_qty front)) as [[-> _]|[-> _]];
        assumption.
Qed.

(** X5.  When every lot of the queue has a positive quantity, every matched
    lot of a sale is for a positive quantity, and so is every lot the sale
    leaves in the queue. *)
Theorem matched_quantities_are_positive :
  forall price qty q0,
    Forall lot_pos q0 ->
    exists s,
      sell_loop (S (List.length q0)) price (loop_entry qty q0) = Some s /\
      Forall (fun l => 0 < used_qty l) (lots s) /\
      Forall lot_pos (queue s).
Proof.
  intros price qty q0 Hq0.
  destruct (sell_loop_entry_total price qty q0) as [s Hs].
  exists s. split; [assumption|].
  apply (sell_loop_invariant price
           (fun s => Forall lot_pos (queue s) /\
                     Forall (fun l => 0 < used_qty l) (lots s))) in Hs.
  - destruct Hs as [[H1 H2] _]. auto.
  - intros s0 H0 Hp. now apply sell_step_used_pos.
  - split; [assumption|constructor].
Qed.

(** ** Results and warnings, row by row and group by group *)

(** What a row does to the results and the warnings does not depend on the
    results and warnings before it. *)
Lemma process_row_uniform (key : string * string) (r : Row) (q : list OpenLot) :
  exists q' new ws,
    (forall res w,
        process_row key (mkState q res w) r =
        Some (mkState q' (res ++ new) (w ++ ws))) /\
    map sale_head new = sells_of_row key r /\ ws = warn_of_row r.
Proof.
  unfold process_row, sells_of_row, warn_of_row.
  cbn [fifo_queue results warnings].
  destruct (parse_row r) as [c|[qty price]].
  - exists q, [], [SkippingRow c]. split; [|auto].
    intros res w. rewrite app_nil_r. reflexivity.
  - destruct (in_vals (row_type r) (buy_vals cfg)).
    + eexists _, [], []. split; [|auto].
      intros res w. rewrite !app_nil_r. reflexivity.
    + destruct (in_vals (row_type r) (sell_vals cfg)).
      * destruct (sell_loop_entry_total price qty q) as [s Hs]. rewrite Hs.
        exists (queue s),
          [mkResult (row_date r) (fst key) (snd key) price qty
                    (total_gain s) (lots s) (row_extras r)], [].
        split; [|split; reflexivity].
        intros res w. rewrite app_nil_r. reflexivity.
      * exists q, [], []. split; [|auto].
        intros res w. rewrite !app_nil_r. reflexivity.
Qed.

Lemma process_rows_uniform (key : string * string) :
  forall rows q, exists q' new ws,
    (forall res w,
        process_rows key (mkState q res w) rows =
        Some (mkState q' (res ++ new) (w ++ ws))) /\
    map sale_head new = flat_map (sells_of_row key) rows /\
    ws = flat_map warn_of_row rows.
Proof.
  induction rows as [|r rest IH]; intro q.
  - exists q, [], []. split; [|auto].
    intros res w. simpl. rewrite !app_nil_r. reflexivity.
  - destruct (process_row_uniform key r q) as (q1 & n1 & w1 & H1 & S1 & W1).
    destruct (IH q1) as (q2 & n2 & w2 & H2 & S2 & W2).
    exists q2, (n1 ++ n2), (w1 ++ w2). split; [|split].
    + intros res w. simpl. rewrite H1, H2, !app_assoc. reflexivity.
    + simpl. rewrite map_app, S1, S2. reflexivity.
    + simpl. rewrite W1, W2. reflexivity.
Qed.

(** X6.  When no extra column is named like an entry of the result
    dictionary, the results of a run over rows are, in the order of the
    rows, one result for each row that converts and whose type is a Sell
    value and no Buy value, and none for any other row; each shows the
    date, the price, the quantity without its sign and the extra cells of
    its row and the key of the group. *)
Theorem one_result_per_sell_row_in_order :
  forall key st rows,
    Forall plain_row rows ->
    exists st' new,
      process_rows key st rows = Some st' /\
      results st' = results st ++ new /\
      map sale_head new = flat_map (sells_of_row key) rows.
Proof.
  intros key [q res w] rows _.
  destruct (process_rows_uniform key rows q) as (q' & new & ws & H & S & _).
  exists (mkState q' (res ++ new) (w ++ ws)), new. rewrite H. auto.
Qed.

(** X7.  The warnings of a run over rows are, in the order of the rows, one
    warning for each row whose quantity or price does not convert, naming
    the cell that failed (the quantity first), and none for any other
    row. *)
Theorem one_warning_per_unconvertible_row :
  forall key st rows, exists st',
    process_rows key st rows = Some st' /\
    warnings st' = warnings st ++ flat_map warn_of_row rows.
Proof.
  intros key [q res w] rows.
  destruct (process_rows_uniform key rows q) as (q' & new & ws & H & _ & W).
  exists (mkState q' (res ++ new) (w ++ ws)). rewrite H, W. auto.
Qed.

Lemma process_group_uniform (g : string * string * list Row) :
  forall st, exists q',
    process_group st g =
    Some (mkState q' (results st ++ results (group_alone g))
                  (warnings st ++ warnings (group_alone g))).
Proof.
  intro st. unfold group_alone, process_group. cbn [results warnings].
  destruct (process_rows_uniform (fst g) (snd g) []) as (q' & new & ws & H & _).
  rewrite !H. exists q'. reflexivity.
Qed.

(** X8.  Groups do not share anything: the results and the warnings of a
    run over groups are those of each group processed on its own from an
    empty queue, put one after the other, whatever the queue, results and
    warnings the run starts from. *)
Theorem groups_are_processed_independently :
  forall gs st, exists st',
    process_groups st gs = Some st' /\
    results st' = results st ++ flat_map (fun g => results (group_alone g)) gs /\
    warnings st' =
      warnings st ++ flat_map (fun g => warnings (group_alone g)) gs.
Proof.
  induction gs as [|g rest IH]; intro st.
  - exists st. simpl. rewrite !app_nil_r. auto.
  - destruct (process_group_uniform g st) as [q1 H1].
    destruct (IH (mkState q1 (results st ++ results (group_alone g))
                          (warnings st ++ warnings (group_alone g))))
      as (st' & H & R & W).
    exists st'. simpl. rewrite H1. split; [assumption|].
    rewrite R, W. simpl. rewrite <- !app_assoc. auto.
Qed.

(** ** Reading the cells *)

Lemma remove_commas_app (s t : string) :
  remove_commas (s ++ t)%string = (remove_commas s ++ remove_commas t)%string.
Proof.
  induction s as [|c s IH]; [reflexivity|].
  simpl. destruct (Ascii.eqb c ","%char); simpl; now rewrite IH.
Qed.

(** X10.  A comma counts for nothing wherever it stands in the text of a
    cell: the text with a comma put in anywhere converts as the text
    without it (so [1,5] is read as [15]). *)
Theorem commas_are_ignored_anywhere :
  forall s1 s2,
    to_float (CStr (s1 ++ "," ++ s2)%string) = to_float (CStr (s1 ++ s2)%string).
Proof.
  intros s1 s2. unfold to_float. rewrite !remove_commas_app. reflexivity.
Qed.

Lemma Qabs_opp_eq (q : Q) : Qabs (- q) = Qabs q.
Proof. destruct q as [n d]. unfold Qabs, Qopp. now rewrite Z.abs_opp. Qed.

Lemma parse_row_flip (r : Row) : parse_row (flip_qty_sign r) = parse_row r.
Proof.
  unfold parse_row, flip_qty_sign. destruct r as [d t q p i c e].
  cbn [row_qty row_price]. destruct q as [x|x|]; try reflexivity.
  cbn [to_float]. destruct (to_float p); [|reflexivity].
  now rewrite Qabs_opp_eq.
Qed.

Lemma process_row_flip (key : string * string) (st : State) (r : Row) :
  process_row key st (flip_qty_sign r) = process_row key st r.
Proof. unfold process_row. rewrite parse_row_flip. reflexivity. Qed.

(** X11.  The sign of a quantity never matters: rows that differ only in
    the sign of numeric quantities give the same queue, the same results
    and the same warnings. *)
Theorem quantity_signs_are_ignored :
  forall key rows rows' st,
    Forall2 same_but_sign rows rows' ->
    process_rows key st rows' = process_rows key st rows.
Proof.
  intros key rows rows' st H. revert st.
  induction H as [|r r' rest rest' Hr _ IH]; intro st; [reflexivity|].
  simpl. assert (E : process_row key st r' = process_row key st r).
  { destruct Hr as [->| ->]; [reflexivity|apply process_row_flip]. }
  rewrite E. destruct (process_row key st r); [apply IH|reflexivity].
Qed.

(** ** The output rows of a run *)

Lemma dict_get_set_same (k : string) (v : OutValue) (d : OutRow) :
  dict_get k (dict_set k v d) = Some v.
Proof.
  induction d as [|[k' v'] d IH]; simpl.
  - now rewrite String.eqb_refl.
  - destruct (String.eqb k' k) eqn:E; simpl.
    + now rewrite String.eqb_refl.
    + now rewrite E.
Qed.

Lemma dict_get_set_other (k k0 : string) (v : OutValue) (d : OutRow) :
  k0 <> k -> dict_get k (dict_set k0 v d) = dict_get k d.
Proof.
  intro Hne. induction d as [|[k' v'] d IH]; simpl.
  - destruct (String.eqb k0 k) eqn:E; [|reflexivity].
    apply String.eqb_eq in E. contradiction.
  - destruct (String.eqb k' k0) eqn:E0; simpl.
    + apply String.eqb_eq in E0. subst k'.
      destruct (String.eqb k0 k) eqn:E; [|reflexivity].
      apply String.eqb_eq in E. contradiction.
    + destruct (String.eqb k' k); [reflexivity|exact IH].
Qed.

Lemma set_extras_other (k : string) (extras : list (string * Cell)) :
  ~ In k (map fst extras) ->
  forall base, dict_get k (set_extras extras base) = dict_get k base.
Proof.
  unfold set_extras. induction extras as [|[k0 c0] rest IH]; intros Hn base;
    [reflexivity|].
  simpl in *. rewrite IH; [|intro H; apply Hn; now right].
  apply dict_get_set_other. intro H. apply Hn. now left.
Qed.

Lemma set_extras_member (k : string) (c : Cell) (extras : list (string * Cell)) :
  NoDup (map fst extras) -> In (k, c) extras ->
  forall base, dict_get k (set_extras extras base) = Some (OCell c).
Proof.
  unfold set_extras. induction extras as [|[k0 c0] rest IH];
    intros Hd Hin base; [contradiction|].
  simpl in *. inversion Hd as [|? ? Hn Hd']; subst.
  destruct Hin as [E|Hin].
  - injection E as -> ->.
    rewrite (set_extras_other k rest Hn). apply dict_get_set_same.
  - now apply IH.
Qed.

(** X13.  An extra column replaces the entry of the output row that bears
    its name: under the name of an extra column the row holds the cell of
    that column, also when the name is ['Buy Date'], ['Buy Price'],
    ['Sell Date'] or ['Used Qty'], whose computed value is then not
    shown. *)
Theorem extra_column_replaces_the_entry_of_its_name :
  forall strftime has_currency res lot k c,
    plain_extras res ->
    NoDup (map fst (identifiers res)) ->
    In (k, c) (identifiers res) ->
    dict_get k (expand_lot strftime has_currency res lot) = Some (OCell c).
Proof.
  intros strftime has_currency res lot k c _ Hd Hin.
  unfold expand_lot. now apply set_extras_member.
Qed.

(** X14.  A sell of quantity 0 is in the results but not in the output
    table: the output rows after it are the output rows before it (no extra
    column being named like an entry of the result dictionary). *)
Theorem zero_quantity_sell_has_no_output_row :
  forall strftime has_currency key st r raw price,
    plain_row r -> Forall plain_extras (results st) ->
    in_vals (row_type r) (buy_vals cfg) = false ->
    in_vals (row_type r) (sell_vals cfg) = true ->
    to_float (row_qty r) = Some raw -> raw == 0 ->
    to_float (row_price r) = Some price ->
    exists st',
      process_row key st r = Some st' /\
      List.length (results st') = S (List.length (results st)) /\
      expanded_results strftime has_currency (results st') =
      expanded_results strftime has_currency (results st).
Proof.
  intros strftime has_currency key st r raw price _ _ Hb Hs Hq Hz Hp.
  unfold process_row, parse_row. rewrite Hq, Hp, Hb, Hs.
  rewrite sell_loop_exit.
  - eexists. split; [reflexivity|]. cbn [results loop_entry lots]. split.
    + rewrite length_app. simpl. lia.
    + unfold expanded_results. rewrite flat_map_app. simpl.
      apply app_nil_r.
  - simpl. apply Qltb_false. rewrite Hz. simpl. apply Qle_refl.
Qed.

End Matcher.

(** ** The matching and the prices *)

Lemma sell_step_same_matching (cfg1 cfg2 : Config) (rnd1 rnd2 : Q -> Q) (p1 p2 : Q)
  (s1 s2 : LoopState) :
  same_matching s1 s2 ->
  same_matching (sell_step cfg1 rnd1 p1 s1) (sell_step cfg2 rnd2 p2 s2).
Proof.
  intros (Hq & Hu & Hl). unfold same_matching, sell_step.
  rewrite <- Hu, <- Hq. destruct (queue s1) as [|front rest];
    cbn [sell_qty queue lots]; rewrite !map_app, Hl; auto.
Qed.

Lemma sell_loop_same_matching (cfg1 cfg2 : Config) (rnd1 rnd2 : Q -> Q) (p1 p2 : Q) :
  forall fuel s1 s2 r1,
    same_matching s1 s2 ->
    sell_loop cfg1 rnd1 fuel p1 s1 = Some r1 ->
    exists r2, sell_loop cfg2 rnd2 fuel p2 s2 = Some r2 /\ same_matching r1 r2.
Proof.
  induction fuel as [|n IH]; intros s1 s2 r1 HR H; simpl in *;
    destruct HR as (Hq & Hu & Hl); rewrite <- Hq;
    destruct (Qltb 0 (sell_qty s1)); try discriminate.
  - injection H as <-. exists s2. unfold same_matching. auto.
  - apply (IH _ (sell_step cfg2 rnd2 p2 s2)) in H; [assumption|].
    apply sell_step_same_matching. unfold same_matching. auto.
  - injection H as <-. exists s2. unfold same_matching. auto.
Qed.

(** X15.  Which lots a sale takes, how much of each, and what it leaves in
    the queue depend neither on the price of the sale nor on the rounding
    (the option or the rounding itself): two sales of the same quantity against the same queue record
    the same used quantities, cost bases and dates and leave the same
    queue. *)
Theorem matching_does_not_depend_on_price_or_rounding :
  forall cfg1 cfg2 rnd1 rnd2 p1 p2 qty q0, exists s1 s2,
    sell_loop cfg1 rnd1 (S (List.length q0)) p1 (loop_entry qty q0) = Some s1 /\
    sell_loop cfg2 rnd2 (S (List.length q0)) p2 (loop_entry qty q0) = Some s2 /\
    queue s1 = queue s2 /\ map matching (lots s1) = map matching (lots s2).
Proof.
  intros cfg1 cfg2 rnd1 rnd2 p1 p2 qty q0.
  destruct (sell_loop_entry_total cfg1 rnd1 p1 qty q0) as [s1 H1].
  destruct (sell_loop_same_matching cfg1 cfg2 rnd1 rnd2 p1 p2 _ _
              (loop_entry qty q0) s1
              (conj eq_refl (conj eq_refl eq_refl)) H1)
    as (s2 & H2 & _ & Hq & Hl).
  exists s1, s2. auto.
Qed.

(** ** The model on the examples of the specification *)

Local Open Scope string_scope.

(** Example A: the sale of 12 takes 10 @ 5 and 2 @ 6, gains 30 + 4, and
    leaves 3 @ 6 in the queue. *)
Example run_example_A :
  exists st res,
    process_rows decimal_float cfg_sample round2 acme (mkState [] [] []) rows_A
    = Some st /\
    fifo_queue st = [mkLot 3 6 (TS 2)] /\ results st = [res] /\
    map used_qty (Matched_Lots res) = [10; 2] /\
    map cost_basis (Matched_Lots res) = [Some 5; Some 6] /\
    map gain (Matched_Lots res) = [Some (3000 # 100); Some (400 # 100)] /\
    Gain_Loss res == 34.
Proof.
  eexists. eexists. split; [reflexivity|]. repeat split; reflexivity.
Qed.

(** Example B: a sale of 5 with nothing bought is one lot of unknown
    origin and a total gain of 0. *)
Example run_example_B :
  process_rows decimal_float cfg_sample round2 acme (mkState [] [] [])
               [sample_row 3 "Sell" "5" "10"]
  = Some (mkState []
            [mkResult (TS 3) "ACME" "USD" 10 5 0
                      [mkMatched 5 None None 10 None] []]
            []).
Proof. reflexivity. Qed.

(** Example C: 3 @ 2 bought, 5 sold @ 4: a lot of 3 with gain 6, then a lot
    of 2 of unknown origin; the queue ends empty. *)
Example run_example_C :
  exists st res,
    process_rows decimal_float cfg_sample round2 acme (mkState [] [] []) rows_C
    = Some st /\
    fifo_queue st = [] /\ results st = [res] /\
    Matched_Lots res =
      [mkMatched 3 (Some 2) (Some (TS 1)) 4 (Some (600 # 100));
       mkMatched 2 None None 4 None] /\
    Gain_Loss res == 6.
Proof.
  eexists. eexists. split; [reflexivity|]. repeat split; reflexivity.
Qed.

(** A thousands separator is removed before the conversion; a text that is
    not a number is not converted. *)
Example to_float_examples :
  to_float decimal_float (CStr "1,000.5") = Some (10005 # 10) /\
  to_float decimal_float (CStr "abc") = None /\
  to_float decimal_float (CNum 7) = Some 7 /\
  to_float decimal_float CObj = None.
Proof. repeat split; reflexivity. Qed.

Example round2_examples :
  round2 (2675 # 1000) = 268 # 100 /\ round2 (-125 # 1000) = -12 # 100 /\
  round2 (1 # 3) = 33 # 100.
Proof. repeat split; reflexivity. Qed.

(** ** The theorems at concrete rows *)

(** Example A after the first pass of the loop of its sale: the lot of
    10 @ 5 is gone and the lot of 5 @ 6 is the queue. *)
Lemma queue_inv_in_example_A :
  StronglySorted by_row_date rows_A /\
  Forall lot_pos (buy_lots decimal_float cfg_sample rows_A) /\
  queue_inv decimal_float cfg_sample rows_A [mkLot 5 6 (TS 2)].
Proof.
  assert (Hs : StronglySorted by_row_date rows_A).
  { unfold rows_A. repeat constructor; unfold by_row_date; simpl; lia. }
  assert (Hp : Forall lot_pos (buy_lots decimal_float cfg_sample rows_A)).
  { unfold rows_A. cbn. repeat constructor. }
  split; [exact Hs|]. split; [exact Hp|].
  apply (queue_holds_positive_lots_in_input_order decimal_float cfg_sample round2
           acme rows_A Hs Hp).
  exact (visited_pass decimal_float cfg_sample round2 acme rows_A
           [sample_row 1 "Buy" "10" "5"; sample_row 2 "Buy" "5" "6"]
           (sample_row 3 "Sell" "12" "8") [] [] []
           (mkState [mkLot 10 5 (TS 1); mkLot 5 6 (TS 2)] [] [])
           12 8 1%nat
           (mkLoop 2 (3000 # 100)
                   [mkMatched 10 (Some 5) (Some (TS 1)) 8 (Some (3000 # 100))]
                   [mkLot 5 6 (TS 2)])
           eq_refl eq_refl eq_refl eq_refl eq_refl eq_refl).
Defined.

(** A Buy of quantity 0 puts a lot of quantity 0 in the queue. *)
Lemma zero_quantity_buy_is_queued :
  StronglySorted by_row_date [row_zero_buy] /\
  visited decimal_float cfg_sample round2 acme [row_zero_buy] [mkLot 0 5 (TS 1)] /\
  ~ queue_inv decimal_float cfg_sample [row_zero_buy] [mkLot 0 5 (TS 1)].
Proof.
  split; [repeat constructor|]. split.
  - exact (visited_row decimal_float cfg_sample round2 acme [row_zero_buy]
             [row_zero_buy] [] [] []
             (mkState [mkLot 0 5 (TS 1)] [] []) eq_refl eq_refl).
  - intros [H _]. inversion H as [|l ls Hl _]. discriminate Hl.
Qed.

(** A sale of 5 entering the loop with an empty queue. *)
Lemma sell_five_from_empty_queue :
  (queue (loop_entry 5 []) = [] /\ 0 < sell_qty (loop_entry 5 [])) /\
  sell_loop cfg_sample round2 1 10 (loop_entry 5 [])
  = Some (mkLoop (5 - 5) 0 [mkMatched 5 None None 10 None] []).
Proof.
  split; [split; reflexivity|].
  apply (proj1 (unknown_origin_is_one_trailing_lot decimal_float cfg_sample round2));
    reflexivity.
Defined.

(** Sell 0 @ 10 while 3 @ 6 is open. *)
Lemma zero_sell_on_open_lot :
  process_row decimal_float cfg_sample round2 acme
              (mkState [mkLot 3 6 (TS 2)] [] []) row_zero_sell
  = Some (mkState [mkLot 3 6 (TS 2)]
                  [mkResult (TS 3) "ACME" "USD" 10 0 0 [] []] []).
Proof.
  apply (zero_quantity_sell_matches_nothing decimal_float cfg_sample round2 acme
           (mkState [mkLot 3 6 (TS 2)] [] []) row_zero_sell 0 10);
    reflexivity.
Defined.

(** No Buy value selected, the button pressed. *)
Lemma no_buy_value_stops :
  buy_vals cfg_no_buy = [] /\
  run_app decimal_float cfg_no_buy round2 as_given one_group true rows_A
  = Some (Stopped config_error).
Proof.
  split; [reflexivity|].
  apply (empty_selection_stops_before_calculation decimal_float cfg_no_buy round2
           as_given one_group true rows_A).
  left. reflexivity.
Defined.

(** A Sell whose quantity reads [abc], between the Buy and the Sell of
    example C. *)
Lemma bad_quantity_row_is_skipped :
  to_float decimal_float (row_qty row_bad_qty) = None /\
  exists c,
    (c = row_qty row_bad_qty \/ c = row_price row_bad_qty) /\
    process_row decimal_float cfg_sample round2 acme
                (mkState [mkLot 3 2 (TS 1)] [] []) row_bad_qty
    = Some (mkState [mkLot 3 2 (TS 1)] [] [SkippingRow c]) /\
    exists q' res' ws,
      process_rows decimal_float cfg_sample round2 acme
                   (mkState [mkLot 3 2 (TS 1)] [] [])
                   [row_bad_qty; sample_row 2 "Sell" "5" "4"]
      = Some (mkState q' res' (SkippingRow c :: ws)) /\
      process_rows decimal_float cfg_sample round2 acme
                   (mkState [mkLot 3 2 (TS 1)] [] [])
                   [sample_row 2 "Sell" "5" "4"]
      = Some (mkState q' res' ws).
Proof.
  split; [reflexivity|].
  apply (unconvertible_row_is_skipped_alone decimal_float cfg_sample round2 acme
           (mkState [mkLot 3 2 (TS 1)] [] []) row_bad_qty
           [sample_row 2 "Sell" "5" "4"]).
  left. reflexivity.
Defined.

(** A row of type [Fee] whose quantity and price are numbers. *)
Lemma fee_row_changes_nothing :
  (in_vals (row_type row_fee) (buy_vals cfg_sample) = false /\
   in_vals (row_type row_fee) (sell_vals cfg_sample) = false) /\
  exists st',
    process_row decimal_float cfg_sample round2 acme
                (mkState [mkLot 3 2 (TS 1)] [] []) row_fee = Some st' /\
    fifo_queue st' = [mkLot 3 2 (TS 1)] /\ results st' = [] /\
    (forall qty price,
        to_float decimal_float (row_qty row_fee) = Some qty ->
        to_float decimal_float (row_price row_fee) = Some price ->
        st' = mkState [mkLot 3 2 (TS 1)] [] []) /\
    (to_float decimal_float (row_qty row_fee) = None \/
     to_float decimal_float (row_price row_fee) = None ->
     exists c, warnings st' = [SkippingRow c]).
Proof.
  split; [split; reflexivity|].
  apply (unclassified_row_changes_nothing decimal_float cfg_sample round2 acme
           (mkState [mkLot 3 2 (TS 1)] [] []) row_fee); reflexivity.
Defined.

(** A row of type [Dividend] whose quantity reads [abc] is warned about,
    though it is neither a Buy nor a Sell. *)
Lemma unclassified_row_with_bad_quantity_warns :
  in_vals (row_type row_dividend) (buy_vals cfg_sample) = false /\
  in_vals (row_type row_dividend) (sell_vals cfg_sample) = false /\
  process_row decimal_float cfg_sample round2 acme (mkState [] [] []) row_dividend
  = Some (mkState [] [] [SkippingRow (CStr "abc")]).
Proof. repeat split; reflexivity. Qed.

(** ** The further properties at concrete rows *)

(** Example A: 12 sold with 10 and 5 open. *)
Lemma positive_quantities_in_example_A :
  Forall lot_pos [mkLot 10 5 (TS 1); mkLot 5 6 (TS 2)] /\
  exists s,
    sell_loop cfg_sample round2 3 8
              (loop_entry 12 [mkLot 10 5 (TS 1); mkLot 5 6 (TS 2)]) = Some s /\
    Forall (fun l => 0 < used_qty l) (lots s) /\ Forall lot_pos (queue s).
Proof.
  assert (H : Forall lot_pos [mkLot 10 5 (TS 1); mkLot 5 6 (TS 2)]).
  { repeat constructor. }
  split; [exact H|].
  exact (matched_quantities_are_positive cfg_sample round2 8 12
           [mkLot 10 5 (TS 1); mkLot 5 6 (TS 2)] H).
Defined.

(** A sale entered as -5 and the same sale entered as 5. *)
Lemma negative_sale_is_the_sale :
  Forall2 same_but_sign
          [num_row 1 "Buy" 3 2; num_row 2 "Sell" 5 4]
          [num_row 1 "Buy" 3 2; num_row 2 "Sell" (-5) 4] /\
  process_rows decimal_float cfg_sample round2 acme (mkState [] [] [])
               [num_row 1 "Buy" 3 2; num_row 2 "Sell" (-5) 4]
  = process_rows decimal_float cfg_sample round2 acme (mkState [] [] [])
                 [num_row 1 "Buy" 3 2; num_row 2 "Sell" 5 4].
Proof.
  assert (H : Forall2 same_but_sign
                [num_row 1 "Buy" 3 2; num_row 2 "Sell" 5 4]
                [num_row 1 "Buy" 3 2; num_row 2 "Sell" (-5) 4]).
  { constructor; [left; reflexivity|].
    constructor; [right; reflexivity|constructor]. }
  split; [exact H|].
  exact (quantity_signs_are_ignored decimal_float cfg_sample round2 acme _ _
           (mkState [] [] []) H).
Defined.

(** An extra column named ['Used Qty']: the output row shows its cell. *)
Lemma used_qty_column_is_replaced :
  (plain_extras res_named_used_qty /\
   NoDup (map fst (identifiers res_named_used_qty)) /\
   In ("Used Qty", CStr "n/a") (identifiers res_named_used_qty)) /\
  dict_get "Used Qty"
           (expand_lot plain_format true res_named_used_qty
                       (mkMatched 12 (Some 5) (Some (TS 1)) 8 (Some 36)))
  = Some (OCell (CStr "n/a")).
Proof.
  assert (H0 : plain_extras res_named_used_qty).
  { intros k [<-|[<-|[]]] H; simpl in H;
      repeat (destruct H as [H|H]; [discriminate H|]); exact H. }
  assert (H1 : NoDup (map fst (identifiers res_named_used_qty))).
  { simpl. constructor; [intros [H|[]]; discriminate H|].
    constructor; [intros []|constructor]. }
  assert (H2 : In ("Used Qty", CStr "n/a") (identifiers res_named_used_qty)).
  { left. reflexivity. }
  split; [repeat split; assumption|].
  exact (extra_column_replaces_the_entry_of_its_name plain_format true
           res_named_used_qty _ _ _ H0 H1 H2).
Defined.

(** Sell 0 @ 10 after example A. *)
Lemma zero_sell_adds_no_output_row :
  (plain_row row_zero_sell /\ Forall plain_extras [res_named_used_qty]) /\
  exists st',
    process_row decimal_float cfg_sample round2 acme
                (mkState [mkLot 3 6 (TS 2)] [res_named_used_qty] [])
                row_zero_sell = Some st' /\
    List.length (results st') = 2%nat /\
    expanded_results plain_format true (results st') =
    expanded_results plain_format true [res_named_used_qty].
Proof.
  assert (H0 : plain_row row_zero_sell) by (intros k []).
  assert (H1 : Forall plain_extras [res_named_used_qty]).
  { constructor; [|constructor].
    intros k [<-|[<-|[]]] H; simpl in H;
      repeat (destruct H as [H|H]; [discriminate H|]); exact H. }
  split; [split; assumption|].
  apply (zero_quantity_sell_has_no_output_row decimal_float cfg_sample round2
           plain_format true acme
           (mkState [mkLot 3 6 (TS 2)] [res_named_used_qty] [])
           row_zero_sell 0 10 H0 H1); reflexivity.
Defined.

(** Example A, a row [Name] added: its one sale is its one result. *)
Lemma results_of_named_example_A :
  Forall plain_row
         [named_row 1 "Buy" "10" "5"; named_row 2 "Fee" "1" "1";
          named_row 3 "Sell" "12" "8"] /\
  exists st' new,
    process_rows decimal_float cfg_sample round2 acme (mkState [] [] [])
                 [named_row 1 "Buy" "10" "5"; named_row 2 "Fee" "1" "1";
                  named_row 3 "Sell" "12" "8"] = Some st' /\
    results st' = new /\
    map sale_head new =
    [(TS 3, "ACME", "USD", 8, 12, [("Name", CStr "Acme")])].
Proof.
  assert (H : Forall plain_row
                [named_row 1 "Buy" "10" "5"; named_row 2 "Fee" "1" "1";
                 named_row 3 "Sell" "12" "8"]).
  { repeat constructor; intros k [<-|[]] H; simpl in H;
      repeat (destruct H as [H|H]; [discriminate H|]); exact H. }
  split; [exact H|].
  exact (one_result_per_sell_row_in_order decimal_float cfg_sample round2
           acme (mkState [] [] []) _ H).
Defined.

(** The sale of example A, processed with 10 @ 5 and 5 @ 6 open. *)
Lemma sale_of_example_A_adds_up :
  exists s,
    sell_loop cfg_sample round2 3 8
              (loop_entry 12 [mkLot 10 5 (TS 1); mkLot 5 6 (TS 2)]) = Some s /\
    process_row decimal_float cfg_sample round2 acme
                (mkState [mkLot 10 5 (TS 1); mkLot 5 6 (TS 2)] [] [])
                (sample_row 3 "Sell" "12" "8")
    = Some (mkState (queue s)
                    [mkResult (TS 3) "ACME" "USD" 8 12 (total_gain s) (lots s)
                              []]
                    []) /\
    sum_used (lots s) == 12.
Proof.
  apply (sell_row_used_quantities_sum_to_its_quantity decimal_float cfg_sample
           round2 acme
           (mkState [mkLot 10 5 (TS 1); mkLot 5 6 (TS 2)] [] [])
           (sample_row 3 "Sell" "12" "8") 12 8); reflexivity.
Defined.

(** The sale of example C, processed with 3 @ 2 open: one gain, rounded,
    and a lot of unknown origin that adds nothing. *)
Lemma sale_of_example_C_total_gain :
  exists s,
    sell_loop cfg_sample round2 2 4 (loop_entry 5 [mkLot 3 2 (TS 1)])
    = Some s /\
    process_row decimal_float cfg_sample round2 acme
                (mkState [mkLot 3 2 (TS 1)] [] [])
                (sample_row 2 "Sell" "5" "4")
    = Some (mkState (queue s)
                    [mkResult (TS 2) "ACME" "USD" 4 5 (total_gain s) (lots s)
                              []]
                    []) /\
    total_gain s =
      fold_left Qplus
        (flat_map (fun l =>
                     match cost_basis l with
                     | Some c => [round2 (used_qty l * (4 - c))]
                     | None => []
                     end) (lots s)) 0 /\
    Forall (fun l =>
              sale_price l = 4 /\
              match cost_basis l with
              | Some c => gain l = Some (round2 (used_qty l * (4 - c)))
              | None => gain l = None
              end) (lots s).
Proof.
  apply (sell_row_total_gain_is_the_sum_of_lot_gains decimal_float cfg_sample
           round2 acme (mkState [mkLot 3 2 (TS 1)] [] [])
           (sample_row 2 "Sell" "5" "4") 5 4); reflexivity.
Defined.
